(** * Configuration persistence of the etho_sensor firmware

    Shallow embedding of [src/accessories/etho_sensor/structs.h],
    [storage.cpp] and [storage.h]: the [configuration] record, the additive
    checksum, and the [Storage] facade in its two build variants (ESP8266:
    rotating EEPROM emulation; ESP32: Preferences key-value store).

    Conventions.
    - A byte ([uint8_t], [char]) is a [Z] in [0, 256); a [uint16_t] is a [Z]
      in [0, 65536) with the wrap-around written out.
    - A [char[20]] buffer is the list of its 20 raw bytes; a [const char*] is
      the list of bytes it points to.  The C string held by either is the
      prefix before the first NUL ([c_str]). The model ends a string with
      the list that holds it. In the program a [char[20]] member without a
      NUL reads on into the member behind it ([wifi_pwd] into the two bytes
      of [checksum]); what [strcmp], [strlen] past the first byte or
      [putString] see of such a member is outside the model, and every
      statement that depends on it is made for records whose four buffers
      are NUL-terminated ([nul_terminated]).
    - The static members of [Storage] are an explicit state record threaded
      through every operation; an operation returns its [bool] result
      together with the new state.
    - [EEPROM_Rotate] and [Preferences] are vendor libraries: they are
      interfaces (type classes) here. Properties of the facade are proved
      for every implementation of the interface where they do not depend on
      the device, and for a lawful or a reference device where they do. *)

From Stdlib Require Import ZArith List Bool Lia.
From Stdlib Require Import Floats.SpecFloat.
From stdpp Require Import base decidable list strings gmap.

Open Scope Z_scope.

(** ** structs.h *)

Record configuration := mkConfiguration {
  location  : list Z;   (* char location[20]  *)
  name      : list Z;   (* char name[20]      *)
  wifi_ssid : list Z;   (* char wifi_ssid[20] *)
  wifi_pwd  : list Z;   (* char wifi_pwd[20]  *)
  checksum  : Z         (* uint16_t checksum  *)
}.

Definition FIELD_SIZE : nat := 20.

(** [sizeof(configuration)]: four 20-byte arrays and one 2-byte integer,
    alignment 2, no padding. *)
Definition sizeof_configuration : nat := 82.

Definition is_byte (b : Z) : bool := (0 <=? b) && (b <? 256).

Definition is_buffer (buf : list Z) : bool :=
  Nat.eqb (length buf) FIELD_SIZE && forallb is_byte buf.

(** A buffer that holds a NUL, and a record whose four buffers do: each
    member is a C string of its own, and no string function reads past it. *)
Definition has_nul (buf : list Z) : bool := existsb (Z.eqb 0) buf.

Definition nul_terminated (cfg : configuration) : bool :=
  has_nul (location cfg) && has_nul (name cfg) &&
  has_nul (wifi_ssid cfg) && has_nul (wifi_pwd cfg).

(** A value of type [configuration] as the compiler lays it out. *)
Definition wf_configuration (cfg : configuration) : bool :=
  is_buffer (location cfg) && is_buffer (name cfg) &&
  is_buffer (wifi_ssid cfg) && is_buffer (wifi_pwd cfg) &&
  (0 <=? checksum cfg) && (checksum cfg <? 65536).

(** The object representation [reinterpret_cast<const uint8_t*>(&cfg)]:
    fields in declaration order, the checksum little-endian. *)
Definition raw_bytes (cfg : configuration) : list Z :=
  location cfg ++ name cfg ++ wifi_ssid cfg ++ wifi_pwd cfg ++
  [checksum cfg mod 256; (checksum cfg / 256) mod 256].

(** The inverse reading, used by [EEPROM.get]: 82 bytes copied over an
    object. Bytes that are missing read as 0. *)
Definition of_raw_bytes (bs : list Z) : configuration :=
  {| location  := take FIELD_SIZE bs;
     name      := take FIELD_SIZE (drop 20 bs);
     wifi_ssid := take FIELD_SIZE (drop 40 bs);
     wifi_pwd  := take FIELD_SIZE (drop 60 bs);
     checksum  := nth 80 bs 0 + 256 * nth 81 bs 0 |}.

Definition set_checksum (cfg : configuration) (c : Z) : configuration :=
  {| location := location cfg; name := name cfg;
     wifi_ssid := wifi_ssid cfg; wifi_pwd := wifi_pwd cfg;
     checksum := c |}.

Definition set_location (cfg : configuration) (b : list Z) : configuration :=
  {| location := b; name := name cfg;
     wifi_ssid := wifi_ssid cfg; wifi_pwd := wifi_pwd cfg;
     checksum := checksum cfg |}.

Definition set_name (cfg : configuration) (b : list Z) : configuration :=
  {| location := location cfg; name := b;
     wifi_ssid := wifi_ssid cfg; wifi_pwd := wifi_pwd cfg;
     checksum := checksum cfg |}.

Definition set_wifi_ssid (cfg : configuration) (b : list Z) : configuration :=
  {| location := location cfg; name := name cfg;
     wifi_ssid := b; wifi_pwd := wifi_pwd cfg;
     checksum := checksum cfg |}.

Definition set_wifi_pwd (cfg : configuration) (b : list Z) : configuration :=
  {| location := location cfg; name := name cfg;
     wifi_ssid := wifi_ssid cfg; wifi_pwd := b;
     checksum := checksum cfg |}.

(** ** storage.cpp: calculateChecksum

    [uint16_t checksum = 0; for (i < sizeof(configuration)) checksum += data[i];]
    The accumulator is 16 bits wide, so every addition wraps. *)
Definition add_u16 (acc b : Z) : Z := (acc + b) mod 65536.

Definition calculateChecksum (cfg : configuration) : Z :=
  fold_left add_u16 (raw_bytes cfg) 0.

(** ** C strings *)

(** The string a [char*] denotes: the bytes before the first NUL. *)
Fixpoint c_str (p : list Z) : list Z :=
  match p with
  | [] => []
  | b :: p' => if b =? 0 then [] else b :: c_str p'
  end.

Definition strlen (p : list Z) : Z := Z.of_nat (length (c_str p)).

(** [strcmp]: byte-wise comparison up to and including the terminator; the
    end of the modelled bytes reads as a terminator. Applied to a member of
    [configuration] this is the program's comparison when the member holds a
    NUL; see [nul_terminated]. *)
Fixpoint strcmp (a b : list Z) : Z :=
  match a, b with
  | [], [] => 0
  | x :: _, [] => x
  | [], y :: _ => - y
  | x :: a', y :: b' =>
      if x =? y then (if x =? 0 then 0 else strcmp a' b') else x - y
  end.

(** [strlcpy(dst, src, size)]: at most [size - 1] bytes of the source
    string, then a NUL; the bytes of [dst] behind the NUL are not written. *)
Definition strlcpy (dst src : list Z) (size : nat) : list Z :=
  match size with
  | O => dst
  | S n => let s := take n (c_str src) in
           s ++ 0 :: drop (S (length s)) dst
  end.

(** A string literal as the bytes of its characters. *)
Definition lit (s : string) : list Z :=
  map (fun c => Z.of_nat (Ascii.nat_of_ascii c)) (String.list_ascii_of_string s).

(** A buffer of [n] bytes holding the string [s], zero-filled behind it. *)
Definition buffer_of (s : list Z) : list Z :=
  strlcpy (replicate FIELD_SIZE 0) s FIELD_SIZE.

(** ** storage.h: StorageError *)

Inductive StorageError :=
| NONE
| NOT_INITIALIZED
| WRITE_FAILED
| READ_FAILED
| VALIDATION_FAILED
| COMMIT_FAILED
| INVALID_FIELD.

#[global] Instance StorageError_eq_dec : EqDecision StorageError.
Proof. solve_decision. Defined.

(** The [default:] branch of the [switch] has no enumerator left to take. *)
Definition getErrorString (error : StorageError) : string :=
  match error with
  | NONE => "No error"
  | NOT_INITIALIZED => "Storage not initialized"
  | WRITE_FAILED => "Write operation failed"
  | READ_FAILED => "Read operation failed"
  | VALIDATION_FAILED => "Validation failed"
  | COMMIT_FAILED => "Commit failed"
  | INVALID_FIELD => "Invalid field name"
  end.

Definition EEPROM_SIZE : Z := 4096.
Definition EEPROM_START : Z := 128.

(** ** The EEPROM_Rotate interface (vendor library, ESP8266)

    The calls the firmware makes: [begin(size)], [read(addr)],
    [write(addr, value)], [commit()] and the templates [put]/[get], which
    copy [sizeof(T)] bytes between an object and the device; and
    [length()], the capacity set by [begin]. *)
Class EEPROM_Rotate (E : Type) := {
  ee_begin  : E -> Z -> E;
  ee_length : E -> Z;
  ee_read   : E -> Z -> Z;
  ee_write  : E -> Z -> Z -> E;
  ee_commit : E -> bool * E
}.

Section EepromTemplates.
Context {E : Type} `{EEPROM_Rotate E}.

(** [put(addr, t)]: the bytes of [t] stored from [addr] upwards. The
    library copies them in one [memcpy] when the object fits the capacity;
    the firmware's only use, 82 bytes at 129 of 4096, does. *)
Fixpoint ee_put_bytes (dev : E) (addr : Z) (bytes : list Z) : E :=
  match bytes with
  | [] => dev
  | b :: bs => ee_put_bytes (ee_write dev addr b) (addr + 1) bs
  end.

(** [get(addr, t)]: [n] bytes read from [addr] upwards. *)
Definition ee_get_bytes (dev : E) (addr : Z) (n : nat) : list Z :=
  map (fun i => ee_read dev (addr + Z.of_nat i)) (seq 0 n).

Definition ee_put (dev : E) (addr : Z) (cfg : configuration) : E :=
  ee_put_bytes dev addr (raw_bytes cfg).

Definition ee_get (dev : E) (addr : Z) : configuration :=
  of_raw_bytes (ee_get_bytes dev addr sizeof_configuration).

End EepromTemplates.

(** What the firmware relies on from a working device: a byte written in
    range is the byte read back, other addresses keep their value, and
    neither [write] nor [commit] changes the capacity or, for [commit], the
    bytes read. *)
Class EEPROM_Lawful (E : Type) `{EEPROM_Rotate E} : Prop := {
  ee_length_begin : forall dev n, 0 < n -> ee_length (ee_begin dev n) = n;
  ee_length_write : forall dev a v, ee_length (ee_write dev a v) = ee_length dev;
  ee_length_commit : forall dev, ee_length (snd (ee_commit dev)) = ee_length dev;
  ee_read_write_eq : forall dev a v,
    0 <= a < ee_length dev -> ee_read (ee_write dev a v) a = v mod 256;
  ee_read_write_ne : forall dev a b v,
    a <> b -> ee_read (ee_write dev a v) b = ee_read dev b;
  ee_read_commit : forall dev a,
    ee_read (snd (ee_commit dev)) a = ee_read dev a
}.

(** Reference device: the RAM mirror [ram] that [read]/[write] work on, the
    flash sector [flash] that [begin] loads and [commit] stores, and whether
    the flash accepts a write ([flash_ok]). Before [begin] the mirror is
    empty: reads give 0 and writes are dropped, as out of range. *)
Record RamEeprom := mkRamEeprom {
  ram : list Z;
  flash : list Z;
  flash_ok : bool
}.

Definition ram_begin (dev : RamEeprom) (size : Z) : RamEeprom :=
  {| ram := resize (Z.to_nat size) 255 (flash dev);
     flash := flash dev; flash_ok := flash_ok dev |}.

Definition ram_read (dev : RamEeprom) (addr : Z) : Z :=
  if (0 <=? addr) && (addr <? Z.of_nat (length (ram dev)))
  then nth (Z.to_nat addr) (ram dev) 0 else 0.

Definition ram_write (dev : RamEeprom) (addr value : Z) : RamEeprom :=
  if (0 <=? addr) && (addr <? Z.of_nat (length (ram dev)))
  then {| ram := <[Z.to_nat addr := value mod 256]> (ram dev);
          flash := flash dev; flash_ok := flash_ok dev |}
  else dev.

Definition ram_commit (dev : RamEeprom) : bool * RamEeprom :=
  if Nat.eqb (length (ram dev)) 0 then (false, dev)
  else if flash_ok dev
       then (true, {| ram := ram dev; flash := ram dev; flash_ok := true |})
       else (false, dev).

Definition ram_length (dev : RamEeprom) : Z := Z.of_nat (length (ram dev)).

#[global] Instance RamEeprom_device : EEPROM_Rotate RamEeprom := {
  ee_begin := ram_begin;
  ee_length := ram_length;
  ee_read := ram_read;
  ee_write := ram_write;
  ee_commit := ram_commit
}.

(** A worn device: the flash no longer takes writes, the mirror is not kept
    either ([write] has no effect), and [commit] still reports success. *)
Record WornEeprom := mkWornEeprom { worn_cells : list Z }.

#[global] Instance WornEeprom_device : EEPROM_Rotate WornEeprom := {
  ee_begin := fun dev _ => dev;
  ee_length := fun dev => Z.of_nat (length (worn_cells dev));
  ee_read := fun dev addr => nth (Z.to_nat addr) (worn_cells dev) 255;
  ee_write := fun dev _ _ => dev;
  ee_commit := fun dev => (true, dev)
}.

(** ** The Preferences interface (vendor library, ESP32)

    [putString] and [putUShort] return the number of bytes written
    ([size_t], 0 on failure); the getters take the default to return when the
    key is absent. *)
Class Preferences (P : Type) := {
  pf_begin  : P -> list Z -> bool -> bool * P;
  putString : P -> list Z -> list Z -> Z * P;
  putUShort : P -> list Z -> Z -> Z * P;
  getString : P -> list Z -> list Z -> list Z;
  getUShort : P -> list Z -> Z -> Z;
  pf_clear  : P -> bool * P
}.

(** Reference store: typed entries under string keys, open or not
    ([started]), and whether the flash accepts a write ([nvs_ok]). *)
Inductive nvs_value :=
| NvsStr (s : list Z)
| NvsU16 (v : Z).

Record NvsPreferences := mkNvsPreferences {
  entries : gmap (list Z) nvs_value;
  started : bool;
  nvs_ok : bool
}.

Definition nvs_begin (p : NvsPreferences) (ns : list Z) (readOnly : bool)
  : bool * NvsPreferences :=
  if started p then (false, p)
  else if nvs_ok p
       then (true, {| entries := entries p; started := true; nvs_ok := true |})
       else (false, p).

Definition nvs_putString (p : NvsPreferences) (key value : list Z)
  : Z * NvsPreferences :=
  if started p && nvs_ok p
  then (strlen value,
        {| entries := <[c_str key := NvsStr (c_str value)]> (entries p);
           started := started p; nvs_ok := nvs_ok p |})
  else (0, p).

Definition nvs_putUShort (p : NvsPreferences) (key : list Z) (value : Z)
  : Z * NvsPreferences :=
  if started p && nvs_ok p
  then (2,
        {| entries := <[c_str key := NvsU16 (value mod 65536)]> (entries p);
           started := started p; nvs_ok := nvs_ok p |})
  else (0, p).

Definition nvs_getString (p : NvsPreferences) (key default : list Z) : list Z :=
  if started p
  then match entries p !! c_str key with
       | Some (NvsStr s) => s
       | _ => c_str default
       end
  else c_str default.

Definition nvs_getUShort (p : NvsPreferences) (key : list Z) (default : Z) : Z :=
  if started p
  then match entries p !! c_str key with
       | Some (NvsU16 v) => v
       | _ => default
       end
  else default.

Definition nvs_clear (p : NvsPreferences) : bool * NvsPreferences :=
  if started p && nvs_ok p
  then (true, {| entries := ∅; started := started p; nvs_ok := nvs_ok p |})
  else (false, p).

#[global] Instance NvsPreferences_device : Preferences NvsPreferences := {
  pf_begin := nvs_begin;
  putString := nvs_putString;
  putUShort := nvs_putUShort;
  getString := nvs_getString;
  getUShort := nvs_getUShort;
  pf_clear := nvs_clear
}.

(** ** storage.h, ESP8266 variant *)
Module ESP8266.
Section WithDevice.
Context {E : Type} `{EEPROM_Rotate E}.

(** The static members [eeprom], [initialized] and [lastError]. *)
Record Storage := mkStorage {
  eeprom : E;
  initialized : bool;
  lastError : StorageError
}.

Definition set_lastError (st : Storage) (e : StorageError) : Storage :=
  {| eeprom := eeprom st; initialized := initialized st; lastError := e |}.

Definition set_eeprom (st : Storage) (dev : E) : Storage :=
  {| eeprom := dev; initialized := initialized st; lastError := lastError st |}.

Definition set_initialized (st : Storage) (b : bool) : Storage :=
  {| eeprom := eeprom st; initialized := b; lastError := lastError st |}.

Definition begin (st : Storage) : bool * Storage :=
  if initialized st then (true, st)
  else
    let st1 := set_eeprom st (ee_begin (eeprom st) EEPROM_SIZE) in
    let st2 := set_initialized st1 true in
    if negb (initialized st2)
    then (false, set_lastError st2 NOT_INITIALIZED)
    else (true, set_lastError st2 NONE).

Definition saveConfig (st : Storage) (cfg : configuration) : bool * Storage :=
  if negb (initialized st) then (false, set_lastError st NOT_INITIALIZED)
  else
    let cfg_with_checksum := set_checksum cfg (calculateChecksum cfg) in
    (* Write data *)
    let e1 := ee_write (eeprom st) EEPROM_START 1 in
    let e2 := ee_put e1 (EEPROM_START + 1) cfg_with_checksum in
    (* Commit changes *)
    let '(committed, e3) := ee_commit e2 in
    let st3 := set_eeprom st e3 in
    if negb committed then (false, set_lastError st3 COMMIT_FAILED)
    else
      (* Verify write *)
      let verify_marker := ee_read e3 EEPROM_START in
      let verify_cfg := ee_get e3 (EEPROM_START + 1) in
      let success :=
        (verify_marker =? 1) &&
        (checksum verify_cfg =? checksum cfg_with_checksum) &&
        (strcmp (name cfg) (name verify_cfg) =? 0) &&
        (strcmp (location cfg) (location verify_cfg) =? 0) &&
        (strcmp (wifi_ssid cfg) (wifi_ssid verify_cfg) =? 0) &&
        (strcmp (wifi_pwd cfg) (wifi_pwd verify_cfg) =? 0) in
      if negb success then (false, set_lastError st3 WRITE_FAILED)
      else (true, set_lastError st3 NONE).

(** [cfg] is the caller's object, passed by reference: the second component
    of the result is its content when the call returns. *)
Definition loadConfig (st : Storage) (cfg : configuration)
  : bool * configuration * Storage :=
  if negb (initialized st) then (false, cfg, set_lastError st NOT_INITIALIZED)
  else
    let valid := ee_read (eeprom st) EEPROM_START in
    if negb (valid =? 1) then (false, cfg, set_lastError st VALIDATION_FAILED)
    else
      let cfg1 := ee_get (eeprom st) (EEPROM_START + 1) in
      let loaded_checksum := checksum cfg1 in
      let cfg2 := set_checksum cfg1 0 in
      let calculated_checksum := calculateChecksum cfg2 in
      if negb (loaded_checksum =? calculated_checksum)
      then (false, cfg2, set_lastError st VALIDATION_FAILED)
      else
        let success := true in
        (* Validate WiFi SSID and password *)
        if (strlen (wifi_ssid cfg2) =? 0) || (strlen (wifi_pwd cfg2) =? 0)
        then (false, cfg2, set_lastError st VALIDATION_FAILED)
        else (success, cfg2, set_lastError st NONE).

(** [updateField] declares a local [configuration cfg;] without an
    initializer and hands it to [loadConfig]; [local] is that object's
    indeterminate content. *)
Definition updateField_from (local : configuration)
  (st : Storage) (field value : list Z) : bool * Storage :=
  if negb (initialized st) then (false, set_lastError st NOT_INITIALIZED)
  else
    let '(loaded, cfg, st1) := loadConfig st local in
    if negb loaded then (false, st1)
    else
      let edited :=
        if strcmp field (lit "name") =? 0
        then Some (set_name cfg (strlcpy (name cfg) value FIELD_SIZE))
        else if strcmp field (lit "location") =? 0
        then Some (set_location cfg (strlcpy (location cfg) value FIELD_SIZE))
        else if strcmp field (lit "wifi_ssid") =? 0
        then Some (set_wifi_ssid cfg (strlcpy (wifi_ssid cfg) value FIELD_SIZE))
        else if strcmp field (lit "wifi_pwd") =? 0
        then Some (set_wifi_pwd cfg (strlcpy (wifi_pwd cfg) value FIELD_SIZE))
        else None in
      match edited with
      | None => (false, set_lastError st1 INVALID_FIELD)
      | Some cfg' =>
          let '(success, st2) := saveConfig st1 cfg' in
          (success, set_lastError st2 NONE)
      end.

Definition updateField : Storage -> list Z -> list Z -> bool * Storage :=
  updateField_from (of_raw_bytes (replicate sizeof_configuration 0)).

Definition clear (st : Storage) : bool * Storage :=
  if negb (initialized st) then (false, set_lastError st NOT_INITIALIZED)
  else
    let e1 := ee_write (eeprom st) EEPROM_START 0 in
    let '(committed, e2) := ee_commit e1 in
    (committed, set_eeprom st e2).

Definition getLastError (st : Storage) : StorageError := lastError st.

End WithDevice.
Arguments Storage E : clear implicits.
Arguments mkStorage {E} _ _ _.
End ESP8266.

(** ** storage.h, ESP32 variant *)
Module ESP32.
Section WithDevice.
Context {P : Type} `{Preferences P}.

Definition NAMESPACE : list Z := lit "app".

(** The static members [preferences], [initialized] and [lastError]. *)
Record Storage := mkStorage {
  preferences : P;
  initialized : bool;
  lastError : StorageError
}.

Definition set_lastError (st : Storage) (e : StorageError) : Storage :=
  {| preferences := preferences st; initialized := initialized st;
     lastError := e |}.

Definition set_preferences (st : Storage) (p : P) : Storage :=
  {| preferences := p; initialized := initialized st;
     lastError := lastError st |}.

Definition set_initialized (st : Storage) (b : bool) : Storage :=
  {| preferences := preferences st; initialized := b;
     lastError := lastError st |}.

Definition begin (st : Storage) : bool * Storage :=
  if initialized st then (true, st)
  else
    let '(opened, p1) := pf_begin (preferences st) NAMESPACE false in
    let st1 := set_initialized (set_preferences st p1) opened in
    if negb (initialized st1)
    then (false, set_lastError st1 NOT_INITIALIZED)
    else (true, set_lastError st1 NONE).

(** The [&&] chain of [saveConfig]: a [size_t] of 0 ends it, and the puts
    behind it are not made. Each put receives the member as a C string: the
    string of the buffer when the buffer is NUL-terminated. *)
Definition put_all (p : P) (cfg : configuration) (sum : Z) : bool * P :=
  let '(n1, p1) := putString p (lit "name") (name cfg) in
  if n1 =? 0 then (false, p1) else
  let '(n2, p2) := putString p1 (lit "location") (location cfg) in
  if n2 =? 0 then (false, p2) else
  let '(n3, p3) := putString p2 (lit "wifi_ssid") (wifi_ssid cfg) in
  if n3 =? 0 then (false, p3) else
  let '(n4, p4) := putString p3 (lit "wifi_pwd") (wifi_pwd cfg) in
  if n4 =? 0 then (false, p4) else
  let '(n5, p5) := putUShort p4 (lit "checksum") sum in
  (negb (n5 =? 0), p5).

Definition saveConfig (st : Storage) (cfg : configuration) : bool * Storage :=
  if negb (initialized st) then (false, set_lastError st NOT_INITIALIZED)
  else
    let cfg_with_checksum := set_checksum cfg (calculateChecksum cfg) in
    let '(success, p1) :=
      put_all (preferences st) cfg (checksum cfg_with_checksum) in
    let st1 := set_preferences st p1 in
    if negb success then (false, set_lastError st1 WRITE_FAILED)
    else (true, set_lastError st1 NONE).

(** [cfg] is the caller's object, passed by reference: the second component
    of the result is its content when the call returns. *)
Definition loadConfig (st : Storage) (cfg : configuration)
  : bool * configuration * Storage :=
  if negb (initialized st) then (false, cfg, set_lastError st NOT_INITIALIZED)
  else
    let p := preferences st in
    let name_ := getString p (lit "name") (lit "") in
    (* String::length() of a String built from a C string is its strlen *)
    if strlen name_ =? 0
    then (false, cfg, set_lastError st VALIDATION_FAILED)
    else
      let cfg1 := set_name cfg (strlcpy (name cfg) name_ FIELD_SIZE) in
      let cfg2 := set_location cfg1
        (strlcpy (location cfg1) (getString p (lit "location") (lit "")) FIELD_SIZE) in
      let cfg3 := set_wifi_ssid cfg2
        (strlcpy (wifi_ssid cfg2) (getString p (lit "wifi_ssid") (lit "")) FIELD_SIZE) in
      let cfg4 := set_wifi_pwd cfg3
        (strlcpy (wifi_pwd cfg3) (getString p (lit "wifi_pwd") (lit "")) FIELD_SIZE) in
      let cfg5 := set_checksum cfg4 (getUShort p (lit "checksum") 0) in
      let loaded_checksum := checksum cfg5 in
      let cfg6 := set_checksum cfg5 0 in
      let calculated_checksum := calculateChecksum cfg6 in
      if negb (loaded_checksum =? calculated_checksum)
      then (false, cfg6, set_lastError st VALIDATION_FAILED)
      else
        let success := true in
        (* Validate WiFi SSID and password *)
        if (strlen (wifi_ssid cfg6) =? 0) || (strlen (wifi_pwd cfg6) =? 0)
        then (false, cfg6, set_lastError st VALIDATION_FAILED)
        else (success, cfg6, set_lastError st NONE).

Definition updateField (st : Storage) (field value : list Z) : bool * Storage :=
  if negb (initialized st) then (false, set_lastError st NOT_INITIALIZED)
  else
    let '(n, p1) := putString (preferences st) field value in
    let success := negb (n =? 0) in
    let st1 := set_preferences st p1 in
    if negb success then (false, set_lastError st1 WRITE_FAILED)
    else (success, set_lastError st1 NONE).

Definition clear (st : Storage) : bool * Storage :=
  if negb (initialized st) then (false, set_lastError st NOT_INITIALIZED)
  else
    let '(cleared, p1) := pf_clear (preferences st) in
    (cleared, set_preferences st p1).

Definition getLastError (st : Storage) : StorageError := lastError st.

End WithDevice.
Arguments Storage P : clear implicits.
Arguments mkStorage {P} _ _ _.
End ESP32.

(** ** Notions used in the statements *)

(** The plain sum of a byte sequence, and the range of its elements. *)
Definition sumZ (bs : list Z) : Z := foldr Z.add 0 bs.

Definition bytes_ok (bs : list Z) : Prop := Forall (fun b => 0 <= b < 256) bs.

(** The sum of the four character arrays: what the checksum covers besides
    its own two bytes. *)
Definition fields_sum (cfg : configuration) : Z :=
  sumZ (location cfg) + sumZ (name cfg) +
  sumZ (wifi_ssid cfg) + sumZ (wifi_pwd cfg).

(** The device after [saveConfig]'s two writes (marker, then record with the
    embedded checksum), before the commit. *)
Definition staged {E : Type} `{EEPROM_Rotate E} (dev : E) (cfg : configuration) : E :=
  ee_put (ee_write dev EEPROM_START 1) (EEPROM_START + 1)
         (set_checksum cfg (calculateChecksum cfg)).

(** Reading back marker and record from [dev] yields the marker 1, the
    checksum computed for [cfg], and the four strings of [cfg]. *)
Definition readback_matches {E : Type} `{EEPROM_Rotate E}
  (dev : E) (cfg : configuration) : Prop :=
  ee_read dev EEPROM_START = 1 /\
  checksum (ee_get dev (EEPROM_START + 1)) = calculateChecksum cfg /\
  c_str (name (ee_get dev (EEPROM_START + 1))) = c_str (name cfg) /\
  c_str (location (ee_get dev (EEPROM_START + 1))) = c_str (location cfg) /\
  c_str (wifi_ssid (ee_get dev (EEPROM_START + 1))) = c_str (wifi_ssid cfg) /\
  c_str (wifi_pwd (ee_get dev (EEPROM_START + 1))) = c_str (wifi_pwd cfg).

(** The four string comparisons of [saveConfig]'s read-back as the program
    makes them: [strcmp] on the members where they lie in the two objects,
    so that a member without NUL is read on into the members behind it. The
    offsets are those of [name], [location], [wifi_ssid] and [wifi_pwd]. *)
Definition strings_equal_in_place (cfg verify_cfg : configuration) : Prop :=
  strcmp (drop 20 (raw_bytes cfg)) (drop 20 (raw_bytes verify_cfg)) = 0 /\
  strcmp (raw_bytes cfg) (raw_bytes verify_cfg) = 0 /\
  strcmp (drop 40 (raw_bytes cfg)) (drop 40 (raw_bytes verify_cfg)) = 0 /\
  strcmp (drop 60 (raw_bytes cfg)) (drop 60 (raw_bytes verify_cfg)) = 0.

(** The record bytes behind the marker all read as zero. *)
Definition record_erased {E : Type} `{EEPROM_Rotate E} (dev : E) : Prop :=
  forall i, 0 <= i < 82 -> ee_read dev (EEPROM_START + 1 + i) = 0.

(** The five keys read as empty strings and a zero checksum. *)
Definition prefs_erased {P : Type} `{Preferences P} (p : P) : Prop :=
  strlen (getString p (lit "name") (lit "")) = 0 /\
  strlen (getString p (lit "location") (lit "")) = 0 /\
  strlen (getString p (lit "wifi_ssid") (lit "")) = 0 /\
  strlen (getString p (lit "wifi_pwd") (lit "")) = 0 /\
  getUShort p (lit "checksum") 0 = 0.

(** What [loadConfig] of the ESP32 variant has copied into the caller's
    record [out] by the time it compares checksums. *)
Definition copied_out {P : Type} `{Preferences P}
  (p : P) (out : configuration) : configuration :=
  {| location := strlcpy (location out) (getString p (lit "location") (lit "")) FIELD_SIZE;
     name := strlcpy (name out) (getString p (lit "name") (lit "")) FIELD_SIZE;
     wifi_ssid := strlcpy (wifi_ssid out) (getString p (lit "wifi_ssid") (lit "")) FIELD_SIZE;
     wifi_pwd := strlcpy (wifi_pwd out) (getString p (lit "wifi_pwd") (lit "")) FIELD_SIZE;
     checksum := 0 |}.

(** Copying the string of [src] into [dst] reproduces the whole buffer
    [src]: the string ends inside the buffer and both hold the same bytes
    behind its terminator. *)
Definition copies_exactly (dst src : list Z) : Prop :=
  strlcpy dst src FIELD_SIZE = src.

(** The namespace after the five puts of [saveConfig]. *)
Definition entries_after_save (m : gmap (list Z) nvs_value)
  (cfg : configuration) (sum : Z) : gmap (list Z) nvs_value :=
  <[lit "checksum" := NvsU16 (sum mod 65536)]>
    (<[lit "wifi_pwd" := NvsStr (c_str (wifi_pwd cfg))]>
      (<[lit "wifi_ssid" := NvsStr (c_str (wifi_ssid cfg))]>
        (<[lit "location" := NvsStr (c_str (location cfg))]>
          (<[lit "name" := NvsStr (c_str (name cfg))]> m)))).

(** [field] is one of the four names [updateField] knows. *)
Definition known_field (field : list Z) : Prop :=
  c_str field = lit "name" \/ c_str field = lit "location" \/
  c_str field = lit "wifi_ssid" \/ c_str field = lit "wifi_pwd".

(** ** Concrete inputs *)

Definition zero_cfg : configuration :=
  of_raw_bytes (replicate sizeof_configuration 0).

(** [{name:"sensor1", location:"lab", wifi_ssid:"NET", wifi_pwd:"pw1234"}],
    value-initialized otherwise. *)
Definition sensor1_cfg : configuration :=
  {| location := buffer_of (lit "lab");
     name := buffer_of (lit "sensor1");
     wifi_ssid := buffer_of (lit "NET");
     wifi_pwd := buffer_of (lit "pw1234");
     checksum := 0 |}.

(** A device whose flash was never written, before [begin]. *)
Definition fresh_eeprom : RamEeprom :=
  {| ram := []; flash := []; flash_ok := true |}.

Definition boot8266 : ESP8266.Storage RamEeprom :=
  ESP8266.mkStorage fresh_eeprom false NONE.

(** The same facade after its first [begin()]. *)
Definition ready8266 : ESP8266.Storage RamEeprom :=
  snd (ESP8266.begin boot8266).

(** An initialized facade over a device holding a set marker and a record
    whose stored checksum (7) is not the sum of its bytes. *)
Definition corrupt8266 : ESP8266.Storage RamEeprom :=
  ESP8266.mkStorage
    {| ram := resize 4096 255
                (replicate 128 255 ++ 1 :: raw_bytes (set_checksum sensor1_cfg 7));
       flash := []; flash_ok := true |}
    true NONE.

(** An initialized facade whose flash refuses the next commit. *)
Definition failing8266 : ESP8266.Storage RamEeprom :=
  ESP8266.mkStorage
    {| ram := replicate 4096 255; flash := []; flash_ok := false |}
    true NONE.

(** An initialized facade over a device whose bytes all read as zero. *)
Definition erased8266 : ESP8266.Storage RamEeprom :=
  ESP8266.mkStorage
    {| ram := replicate 4096 0; flash := replicate 4096 0; flash_ok := true |}
    true NONE.

(** The facade after [begin()] and [saveConfig(sensor1_cfg)]. *)
Definition saved8266 : ESP8266.Storage RamEeprom :=
  snd (ESP8266.saveConfig ready8266 sensor1_cfg).

(** A record with working WiFi fields and an empty name. *)
Definition noname_cfg : configuration :=
  set_name sensor1_cfg (buffer_of (lit "")).

(** [saved8266] once the flash has stopped accepting commits. *)
Definition saved_failing8266 : ESP8266.Storage RamEeprom :=
  ESP8266.mkStorage
    {| ram := ram (ESP8266.eeprom saved8266);
       flash := flash (ESP8266.eeprom saved8266);
       flash_ok := false |}
    true NONE.

Definition worn8266 : ESP8266.Storage WornEeprom :=
  ESP8266.mkStorage (mkWornEeprom []) true NONE.

Definition fresh_prefs : NvsPreferences :=
  {| entries := ∅; started := false; nvs_ok := true |}.

Definition boot32 : ESP32.Storage NvsPreferences :=
  ESP32.mkStorage fresh_prefs false NONE.

(** The same facade after its first [begin()]: an open, empty namespace. *)
Definition ready32 : ESP32.Storage NvsPreferences :=
  snd (ESP32.begin boot32).

(** The facade after [begin()] and [saveConfig(sensor1_cfg)]. *)
Definition saved32 : ESP32.Storage NvsPreferences :=
  snd (ESP32.saveConfig ready32 sensor1_cfg).

(** Case analysis on every branch and every pair an operation takes apart. *)
Ltac break_branches :=
  repeat match goal with
  | |- context [let '(_, _) := ?x in _] => destruct x
  | |- context [if ?b then _ else _] => destruct b
  end.

(** ** network.cpp: handleConfig

    The handler reads the request body (or the two form arguments), parses
    it as JSON, and then works on the document. Web server and JSON parser
    are vendor libraries; what they hand to the code below is the input:
    no payload at all, a payload that does not parse, or a document in which
    each of the keys [name] and [location] is absent or holds a string. *)
Inductive config_request :=
| NoPayload
| InvalidJson
| Document (newName newLocation : option (list Z)).

(** The five [server.send] calls of the handler. *)
Inductive config_response :=
| InvalidRequest      (* 400, "Invalid request" *)
| InvalidJsonReply    (* 400, "Invalid JSON" *)
| ConfigurationUpdated (* 200, "Configuration updated successfully" *)
| SaveFailed          (* 500, "Failed to save configuration" *)
| NoChangesMade.      (* 200, "No changes made" *)

Definition status_code (r : config_response) : Z :=
  match r with
  | InvalidRequest | InvalidJsonReply => 400
  | ConfigurationUpdated | NoChangesMade => 200
  | SaveFailed => 500
  end.

Section HandleConfig.
(** The facade the handler is linked against: either variant of [Storage]. *)
Context {S : Type}.
Variable updateField : S -> list Z -> list Z -> bool * S.
Variable saveConfig : S -> configuration -> bool * S.

(** [cfg] is the global in-memory configuration; the result holds the reply
    sent, the content of [cfg] and the state of the facade afterwards. *)
Definition handleConfig (st : S) (cfg : configuration) (req : config_request)
  : config_response * configuration * S :=
  match req with
  | NoPayload => (InvalidRequest, cfg, st)
  | InvalidJson => (InvalidJsonReply, cfg, st)
  | Document newName newLocation =>
      let configChanged := false in
      let '(configChanged, cfg, st) :=
        match newName with
        | Some newName =>
            let '(ok, st1) := updateField st (lit "name") newName in
            if ok
            then (true, set_name cfg (strlcpy (name cfg) newName FIELD_SIZE), st1)
            else (configChanged, cfg, st1)
        | None => (configChanged, cfg, st)
        end in
      let '(configChanged, cfg, st) :=
        match newLocation with
        | Some newLocation =>
            let '(ok, st1) := updateField st (lit "location") newLocation in
            if ok
            then (true,
                  set_location cfg (strlcpy (location cfg) newLocation FIELD_SIZE),
                  st1)
            else (configChanged, cfg, st1)
        | None => (configChanged, cfg, st)
        end in
      if configChanged
      then let '(saved, st1) := saveConfig st cfg in
           if saved then (ConfigurationUpdated, cfg, st1)
           else (SaveFailed, cfg, st1)
      else (NoChangesMade, cfg, st)
  end.

End HandleConfig.

(** ** sensors.cpp: readSensorData

    [float] is IEEE 754 binary32, taken from the specification of
    floating-point arithmetic of the standard library: 24 bits of precision,
    exponents up to 128. [==] and [!=] are the IEEE comparisons. *)
Definition f32 : Type := spec_float.
Definition NAN : f32 := S754_nan.
Definition f32_eqb (x y : f32) : bool := SFeqb x y.
Definition f32_div (x y : f32) : f32 := SFdiv 24 128 x y.

(** The literal [100.0F]: 13107200 * 2^-17. *)
Definition f32_100 : f32 := S754_finite false 13107200 (-17).

(** structs.h *)
Record environment := mkEnvironment {
  temperature : f32;
  humidity : f32;
  pressure : f32;
  lux : Z               (* uint16_t *)
}.

(** What the drivers return to one call of [readSensorData]. *)
Record sensor_readings := mkReadings {
  readTemperature : f32;
  readPressure : f32;
  readHumidity : f32;
  GetLightIntensity : Z
}.

(** [bme280_h] says whether the driver header defines [__BME280_H__], the
    condition under which the humidity is read; [USELIGHT] is defined in
    config.h. [env] is the global mirror of the last reading. *)
Definition readSensorData (bme280_h : bool) (env : environment)
  (r : sensor_readings) : bool * environment :=
  let temp := readTemperature r in
  if f32_eqb temp NAN then (false, env)
  else
    let press := readPressure r in
    if f32_eqb press NAN then (false, env)
    else
      let env1 := {| temperature := temp; humidity := humidity env;
                     pressure := f32_div press f32_100; lux := lux env |} in
      let env2 :=
        if bme280_h
        then let hum := readHumidity r in
             if negb (f32_eqb hum NAN)
             then {| temperature := temperature env1; humidity := hum;
                     pressure := pressure env1; lux := lux env1 |}
             else env1
        else env1 in
      (true, {| temperature := temperature env2; humidity := humidity env2;
                pressure := pressure env2; lux := GetLightIntensity r |}).

(** ** scripts/.../esp8266_environmental_sensors: config.h and utils.cpp

    The earlier sketch: a configuration without checksum, stored two bytes
    behind the marker, and neither validated nor verified. *)
Module Legacy.

Record configuration := mkConfiguration {
  location  : list Z;   (* char location[20]  *)
  name      : list Z;   (* char name[20]      *)
  wifi_ssid : list Z;   (* char wifi_ssid[20] *)
  wifi_pwd  : list Z    (* char wifi_pwd[20]  *)
}.

Definition sizeof_configuration : nat := 80.

Definition wf_configuration (cfg : configuration) : bool :=
  is_buffer (location cfg) && is_buffer (name cfg) &&
  is_buffer (wifi_ssid cfg) && is_buffer (wifi_pwd cfg).

Definition raw_bytes (cfg : configuration) : list Z :=
  location cfg ++ name cfg ++ wifi_ssid cfg ++ wifi_pwd cfg.

Definition of_raw_bytes (bs : list Z) : configuration :=
  {| location  := take FIELD_SIZE bs;
     name      := take FIELD_SIZE (drop 20 bs);
     wifi_ssid := take FIELD_SIZE (drop 40 bs);
     wifi_pwd  := take FIELD_SIZE (drop 60 bs) |}.

Section WithDevice.
Context {E : Type} `{EEPROM_Rotate E}.

(** The outcome of the commit is only printed. *)
Definition saveConfiguration (EEPROMr : E) (cfg : configuration) : E :=
  let e1 := ee_write EEPROMr EEPROM_START 1 in
  let e2 := ee_put_bytes e1 (EEPROM_START + 2) (raw_bytes cfg) in
  snd (ee_commit e2).

Definition loadConfiguration (EEPROMr : E) (cfg : configuration)
  : E * configuration :=
  let e1 := if negb (ee_read EEPROMr EEPROM_START =? 1)
            then saveConfiguration EEPROMr cfg
            else EEPROMr in
  (e1, of_raw_bytes (ee_get_bytes e1 (EEPROM_START + 2) sizeof_configuration)).

End WithDevice.
End Legacy.

(** A record of the earlier sketch. *)
Definition legacy_cfg : Legacy.configuration :=
  {| Legacy.location := buffer_of (lit "lab");
     Legacy.name := buffer_of (lit "sensor1");
     Legacy.wifi_ssid := buffer_of (lit "NET");
     Legacy.wifi_pwd := buffer_of (lit "pw1234") |}.

(** [sensor1_cfg] with the first letter of the name changed, and with the
    buffers of name and location exchanged. *)
Definition tensor1_cfg : configuration :=
  set_name sensor1_cfg (buffer_of (lit "tensor1")).

Definition swapped_cfg : configuration :=
  set_location (set_name sensor1_cfg (location sensor1_cfg)) (name sensor1_cfg).

(** [sensor1_cfg] without an SSID. *)
Definition nossid_cfg : configuration :=
  set_wifi_ssid sensor1_cfg (buffer_of (lit "")).

(** [ready8266] once the flash has stopped accepting commits. *)
Definition ready_failing8266 : ESP8266.Storage RamEeprom :=
  ESP8266.mkStorage
    {| ram := ram (ESP8266.eeprom ready8266);
       flash := flash (ESP8266.eeprom ready8266);
       flash_ok := false |}
    true NONE.

(** The record [updateField] of the ESP8266 variant hands to [saveConfig]:
    the chain of [strcmp] tests on the field name, applied to the record
    [cfg] that was loaded; [None] is the final [else]. *)
Definition edited_record (field value : list Z) (cfg : configuration)
  : option configuration :=
  if strcmp field (lit "name") =? 0
  then Some (set_name cfg (strlcpy (name cfg) value FIELD_SIZE))
  else if strcmp field (lit "location") =? 0
  then Some (set_location cfg (strlcpy (location cfg) value FIELD_SIZE))
  else if strcmp field (lit "wifi_ssid") =? 0
  then Some (set_wifi_ssid cfg (strlcpy (wifi_ssid cfg) value FIELD_SIZE))
  else if strcmp field (lit "wifi_pwd") =? 0
  then Some (set_wifi_pwd cfg (strlcpy (wifi_pwd cfg) value FIELD_SIZE))
  else None.

(** [sensor1_cfg] with a password that fills its buffer: 20 letters and no
    NUL. *)
Definition pwd20_cfg : configuration :=
  set_wifi_pwd sensor1_cfg (replicate 20 112).

(** [sensor1_cfg] without a location. *)
Definition noloc_cfg : configuration :=
  set_location sensor1_cfg (buffer_of (lit "")).

(** [sensor1_cfg] after a longer name was replaced by [abc] in place: the
    rest of the old name is still behind the terminator. *)
Definition stale_cfg : configuration :=
  set_name sensor1_cfg
    (strlcpy (buffer_of (lit "a-longer-name")) (lit "abc") FIELD_SIZE).

(** * Properties *)

(** ** C strings *)

Lemma strcmp_zero_iff (a b : list Z) : strcmp a b = 0 <-> c_str a = c_str b.
Proof.
  revert b; induction a as [|x a IH]; intros [|y b]; simpl.
  - tauto.
  - destruct (Z.eqb_spec y 0); split; intros; try lia; try congruence; auto.
  - destruct (Z.eqb_spec x 0); split; intros; try lia; try congruence; auto.
  - destruct (Z.eqb_spec x y) as [->|Hxy].
    + destruct (Z.eqb_spec y 0); [tauto|].
      rewrite IH. split; [congruence | now inversion 1].
    + destruct (Z.eqb_spec x 0), (Z.eqb_spec y 0);
        split; intros; try lia; try congruence.
Qed.

Lemma strcmp_eqb (a b : list Z) :
  (strcmp a b =? 0) = bool_decide (c_str a = c_str b).
Proof.
  destruct (Z.eqb_spec (strcmp a b) 0) as [Hz|Hz];
    rewrite strcmp_zero_iff in Hz; symmetry;
    [by apply bool_decide_eq_true_2 | by apply bool_decide_eq_false_2].
Qed.

Lemma strcmp_refl (a : list Z) : strcmp a a = 0.
Proof. by apply strcmp_zero_iff. Qed.

Lemma c_str_nul_free (p : list Z) : Forall (fun b => b <> 0) (c_str p).
Proof.
  induction p as [|b p IH]; simpl; [constructor|].
  destruct (Z.eqb_spec b 0); constructor; auto.
Qed.

Lemma c_str_app_nul (s rest : list Z) :
  Forall (fun b => b <> 0) s -> c_str (s ++ 0 :: rest) = s.
Proof.
  induction 1 as [|b s Hb _ IH]; simpl; [done|].
  destruct (Z.eqb_spec b 0); [done | by rewrite IH].
Qed.

Lemma c_str_of_nul_free (s : list Z) :
  Forall (fun b => b <> 0) s -> c_str s = s.
Proof.
  induction 1 as [|b s Hb _ IH]; simpl; [done|].
  destruct (Z.eqb_spec b 0); [done | by rewrite IH].
Qed.

Lemma c_str_idemp (p : list Z) : c_str (c_str p) = c_str p.
Proof.
  induction p as [|b p IH]; simpl; [done|].
  destruct (Z.eqb_spec b 0) as [|Hb]; simpl; [done|].
  destruct (Z.eqb_spec b 0); [done | by rewrite IH].
Qed.

Lemma strlen_zero_iff (p : list Z) : strlen p = 0 <-> c_str p = [].
Proof.
  unfold strlen. destruct (c_str p); simpl; split; intros; try done; lia.
Qed.

Lemma strlen_nonneg (p : list Z) : 0 <= strlen p.
Proof. unfold strlen; lia. Qed.

(** The string left in [dst] by [strlcpy]: the source, cut to [size - 1]. *)
Lemma c_str_strlcpy (dst src : list Z) (n : nat) :
  c_str (strlcpy dst src (S n)) = take n (c_str src).
Proof.
  unfold strlcpy. apply c_str_app_nul.
  apply Forall_take, c_str_nul_free.
Qed.

Lemma length_strlcpy (dst src : list Z) (size : nat) :
  (size <= length dst)%nat -> length (strlcpy dst src size) = length dst.
Proof.
  destruct size as [|n]; simpl; [done|]. intros Hn.
  rewrite length_app; simpl. rewrite length_drop, length_take. lia.
Qed.

Lemma strlen_strlcpy_zero (dst src : list Z) :
  strlen (strlcpy dst src FIELD_SIZE) = 0 <-> strlen src = 0.
Proof.
  rewrite !strlen_zero_iff. unfold FIELD_SIZE. rewrite c_str_strlcpy.
  destruct (c_str src); simpl; split; done.
Qed.

(** On NUL-terminated buffers nothing behind the buffer is read: the string
    and the comparison are those of the buffers alone. *)
Lemma has_nul_cons (x : Z) (a : list Z) :
  has_nul (x :: a) = (x =? 0) || has_nul a.
Proof. unfold has_nul. cbn [existsb]. by rewrite (Z.eqb_sym 0 x). Qed.

Lemma c_str_app_terminated (a r : list Z) :
  has_nul a = true -> c_str (a ++ r) = c_str a.
Proof.
  induction a as [|x a IH]; [done|].
  rewrite has_nul_cons. cbn [app c_str].
  destruct (Z.eqb_spec x 0) as [->|Hx]; [done|].
  cbn [orb]. intros Ha. by rewrite IH.
Qed.

Lemma strcmp_app_terminated (a b r1 r2 : list Z) :
  has_nul a = true -> has_nul b = true ->
  strcmp (a ++ r1) (b ++ r2) = strcmp a b.
Proof.
  revert b; induction a as [|x a IH]; intros [|y b]; try done.
  rewrite !has_nul_cons. cbn [app strcmp].
  destruct (Z.eqb_spec x y) as [->|Hxy]; [|done].
  destruct (Z.eqb_spec y 0) as [->|Hy]; [done|].
  cbn [orb]. intros Ha Hb. by apply IH.
Qed.

Lemma has_nul_strlcpy (dst src : list Z) (n : nat) :
  has_nul (strlcpy dst src (S n)) = true.
Proof.
  unfold strlcpy, has_nul. rewrite existsb_app. apply orb_true_iff. right.
  reflexivity.
Qed.

(** ** The object representation *)

Lemma is_buffer_spec (buf : list Z) :
  is_buffer buf = true -> length buf = FIELD_SIZE /\ bytes_ok buf.
Proof.
  unfold is_buffer. intros [Hl Hb]%andb_prop. split.
  - by apply Nat.eqb_eq.
  - apply Forall_forall. intros b Hin%list_elem_of_In.
    rewrite forallb_forall in Hb. specialize (Hb b Hin).
    unfold is_byte in Hb. lia.
Qed.

Lemma wf_configuration_spec (cfg : configuration) :
  wf_configuration cfg = true ->
  (length (location cfg) = FIELD_SIZE /\ bytes_ok (location cfg)) /\
  (length (name cfg) = FIELD_SIZE /\ bytes_ok (name cfg)) /\
  (length (wifi_ssid cfg) = FIELD_SIZE /\ bytes_ok (wifi_ssid cfg)) /\
  (length (wifi_pwd cfg) = FIELD_SIZE /\ bytes_ok (wifi_pwd cfg)) /\
  0 <= checksum cfg < 65536.
Proof.
  unfold wf_configuration. rewrite !andb_true_iff.
  intros [[[[[H1 H2] H3] H4] H5] H6].
  repeat split; try (by apply is_buffer_spec); lia.
Qed.

Lemma sumZ_app (a b : list Z) : sumZ (a ++ b) = sumZ a + sumZ b.
Proof. induction a as [|x a IH]; simpl; [done|]. rewrite IH. lia. Qed.

Lemma sumZ_bounds (bs : list Z) :
  bytes_ok bs -> 0 <= sumZ bs <= 255 * Z.of_nat (length bs).
Proof. induction 1 as [|b bs Hb _ IH]; simpl; lia. Qed.

Lemma sumZ_pos (bs : list Z) :
  bytes_ok bs -> c_str bs <> [] -> 0 < sumZ bs.
Proof.
  intros Hok. destruct Hok as [|b bs Hb Hbs]; simpl; [done|].
  destruct (Z.eqb_spec b 0); [done|]. intros _.
  pose proof (sumZ_bounds bs Hbs). lia.
Qed.

Lemma fold_add_u16 (bs : list Z) (acc : Z) :
  fold_left add_u16 bs (acc mod 65536) = (acc + sumZ bs) mod 65536.
Proof.
  revert acc; induction bs as [|b bs IH]; intros acc; simpl.
  - by rewrite Z.add_0_r.
  - unfold add_u16 at 2. rewrite Zplus_mod_idemp_l, IH.
    f_equal. lia.
Qed.

Lemma calculateChecksum_sum (cfg : configuration) :
  calculateChecksum cfg = sumZ (raw_bytes cfg) mod 65536.
Proof. unfold calculateChecksum. apply (fold_add_u16 _ 0). Qed.

Lemma calculateChecksum_range (cfg : configuration) :
  0 <= calculateChecksum cfg < 65536.
Proof. rewrite calculateChecksum_sum. by apply Z.mod_pos_bound. Qed.

Lemma sumZ_raw_bytes (cfg : configuration) :
  sumZ (raw_bytes cfg) =
  fields_sum cfg + checksum cfg mod 256 + (checksum cfg / 256) mod 256.
Proof. unfold raw_bytes, fields_sum. rewrite !sumZ_app. simpl. lia. Qed.

Lemma calculateChecksum_zeroed (cfg : configuration) :
  calculateChecksum (set_checksum cfg 0) = fields_sum cfg mod 65536.
Proof.
  rewrite calculateChecksum_sum, sumZ_raw_bytes. unfold fields_sum; simpl.
  f_equal. rewrite Z.div_0_l, Zmod_0_l by lia. lia.
Qed.

(** [calculateChecksum] counts the two bytes of the checksum field that the
    object holds at the time of the call. *)
Lemma calculateChecksum_counts_own_field (cfg : configuration) :
  calculateChecksum cfg =
  (calculateChecksum (set_checksum cfg 0)
   + checksum cfg mod 256 + (checksum cfg / 256) mod 256) mod 65536.
Proof.
  rewrite calculateChecksum_zeroed, calculateChecksum_sum, sumZ_raw_bytes.
  rewrite <- !Z.add_assoc. by rewrite Zplus_mod_idemp_l.
Qed.

Lemma calculateChecksum_agree_iff (cfg : configuration) :
  0 <= checksum cfg < 65536 ->
  calculateChecksum cfg = calculateChecksum (set_checksum cfg 0)
  <-> checksum cfg = 0.
Proof.
  intros Hc. rewrite calculateChecksum_zeroed, calculateChecksum_sum, sumZ_raw_bytes.
  pose proof (Z.mod_pos_bound (checksum cfg) 256 ltac:(lia)) as Hlo.
  pose proof (Z.mod_pos_bound (checksum cfg / 256) 256 ltac:(lia)) as Hhi.
  pose proof (Z.div_mod (checksum cfg) 256 ltac:(lia)) as Hdm.
  assert (Hq : 0 <= checksum cfg / 256 < 256).
  { split; [apply Z.div_pos; lia | apply Z.div_lt_upper_bound; lia]. }
  rewrite (Z.mod_small (checksum cfg / 256) 256) in * by lia.
  set (S := fields_sum cfg). set (lo := checksum cfg mod 256) in *.
  set (hi := checksum cfg / 256) in *.
  split.
  - intros Heq.
    assert (Hd : (lo + hi) mod 65536 = 0).
    { replace (lo + hi) with ((S + lo + hi) - S) by lia.
      rewrite Zminus_mod, Heq, Z.sub_diag. done. }
    rewrite Z.mod_small in Hd by lia. lia.
  - intros H0. assert (lo = 0 /\ hi = 0) as [-> ->] by lia.
    f_equal. lia.
Qed.

Lemma set_checksum_same (cfg : configuration) :
  set_checksum cfg (checksum cfg) = cfg.
Proof. by destruct cfg. Qed.

Lemma set_checksum_twice (cfg : configuration) (a b : Z) :
  set_checksum (set_checksum cfg a) b = set_checksum cfg b.
Proof. done. Qed.

Lemma length_raw_bytes (cfg : configuration) :
  wf_configuration cfg = true -> length (raw_bytes cfg) = sizeof_configuration.
Proof.
  intros ([H1 _] & [H2 _] & [H3 _] & [H4 _] & _)%wf_configuration_spec.
  unfold raw_bytes. rewrite !length_app, H1, H2, H3, H4. done.
Qed.

Lemma bytes_ok_raw_bytes (cfg : configuration) :
  wf_configuration cfg = true -> bytes_ok (raw_bytes cfg).
Proof.
  intros ([_ H1] & [_ H2] & [_ H3] & [_ H4] & _)%wf_configuration_spec.
  unfold raw_bytes, bytes_ok. rewrite !Forall_app. repeat split; try done.
  repeat constructor; apply Z.mod_pos_bound; lia.
Qed.

(** Copying an object's bytes out and back in gives the same object. *)
Lemma of_raw_bytes_raw_bytes (cfg : configuration) :
  wf_configuration cfg = true -> of_raw_bytes (raw_bytes cfg) = cfg.
Proof.
  intros ([H1 _] & [H2 _] & [H3 _] & [H4 _] & Hc)%wf_configuration_spec.
  destruct cfg as [l n s p c]; simpl in *.
  unfold of_raw_bytes, raw_bytes, FIELD_SIZE in *; simpl.
  f_equal.
  - by rewrite take_app_length'.
  - rewrite drop_app_length' by done. by rewrite take_app_length'.
  - change 40%nat with (20 + 20)%nat. rewrite <- drop_drop.
    rewrite drop_app_length' by done. rewrite drop_app_length' by done.
    by rewrite take_app_length'.
  - change 60%nat with (20 + (20 + 20))%nat. rewrite <- !drop_drop.
    rewrite !drop_app_length' by done. by rewrite take_app_length'.
  - rewrite !app_assoc.
    rewrite !app_nth2; rewrite !length_app, H1, H2, H3, H4; try lia.
    simpl.
    pose proof (Z.div_mod c 256 ltac:(lia)).
    assert (0 <= c / 256 < 256).
    { split; [apply Z.div_pos; lia | apply Z.div_lt_upper_bound; lia]. }
    rewrite (Z.mod_small (c / 256)) by lia. lia.
Qed.

Lemma wf_set_checksum (cfg : configuration) (c : Z) :
  wf_configuration cfg = true -> 0 <= c < 65536 ->
  wf_configuration (set_checksum cfg c) = true.
Proof.
  unfold wf_configuration; simpl. rewrite !andb_true_iff.
  intros [[[[[H1 H2] H3] H4] _] _] Hc. repeat split; try done; lia.
Qed.

(** For a record with NUL-terminated buffers, the read-back comparisons the
    program makes in place against the same record with another checksum
    all find equal strings: no comparison reaches the checksum member. *)
Lemma strings_equal_in_place_terminated (cfg : configuration) (c : Z) :
  wf_configuration cfg = true -> nul_terminated cfg = true ->
  strings_equal_in_place cfg (set_checksum cfg c).
Proof.
  intros ([L1 _] & [L2 _] & [L3 _] & [L4 _] & _)%wf_configuration_spec Ht.
  unfold nul_terminated in Ht. rewrite !andb_true_iff in Ht.
  destruct Ht as [[[T1 T2] T3] T4].
  destruct cfg as [l n s0 p ck]. cbn [location name wifi_ssid wifi_pwd] in *.
  unfold strings_equal_in_place, raw_bytes, set_checksum, FIELD_SIZE in *.
  cbn [location name wifi_ssid wifi_pwd checksum].
  assert (D20 : forall X : list Z, drop 20 (l ++ X) = X)
    by (intros X; by apply drop_app_length').
  assert (D40 : forall X : list Z, drop 40 (l ++ n ++ X) = X).
  { intros X. rewrite app_assoc. apply drop_app_length'.
    rewrite length_app. lia. }
  assert (D60 : forall X : list Z, drop 60 (l ++ n ++ s0 ++ X) = X).
  { intros X. rewrite !app_assoc. apply drop_app_length'.
    rewrite !length_app. lia. }
  rewrite !D20, !D40, !D60.
  rewrite !strcmp_app_terminated by done.
  by rewrite !strcmp_refl.
Qed.


(** ** A lawful EEPROM: [get] after [put] *)

Section LawfulEeprom.
Context {E : Type} `{EEPROM_Lawful E}.

Lemma ee_length_put_bytes (bs : list Z) (dev : E) (a : Z) :
  ee_length (ee_put_bytes dev a bs) = ee_length dev.
Proof.
  revert dev a; induction bs as [|b bs IH]; intros dev a; simpl; [done|].
  by rewrite IH, ee_length_write.
Qed.

Lemma ee_read_put_bytes_outside (bs : list Z) (dev : E) (a x : Z) :
  x < a \/ a + Z.of_nat (length bs) <= x ->
  ee_read (ee_put_bytes dev a bs) x = ee_read dev x.
Proof.
  revert dev a; induction bs as [|b bs IH]; intros dev a Hx; simpl; [done|].
  simpl in Hx. rewrite IH by lia. apply ee_read_write_ne. lia.
Qed.

Lemma ee_read_put_bytes_inside (bs : list Z) (dev : E) (a : Z) (i : nat) :
  0 <= a -> a + Z.of_nat (length bs) <= ee_length dev -> bytes_ok bs ->
  (i < length bs)%nat ->
  ee_read (ee_put_bytes dev a bs) (a + Z.of_nat i) = nth i bs 0.
Proof.
  revert dev a i; induction bs as [|b bs IH]; intros dev a i Ha Hsz Hok Hi;
    simpl in *; [lia|].
  apply Forall_cons in Hok as [Hb Hok].
  destruct i as [|i].
  - rewrite Z.add_0_r, ee_read_put_bytes_outside by lia.
    rewrite ee_read_write_eq by lia. apply Z.mod_small; lia.
  - replace (a + Z.of_nat (S i)) with ((a + 1) + Z.of_nat i) by lia.
    apply IH; try done; try lia. rewrite ee_length_write. lia.
Qed.

Lemma ee_get_put_bytes (bs : list Z) (dev : E) (a : Z) :
  0 <= a -> a + Z.of_nat (length bs) <= ee_length dev -> bytes_ok bs ->
  ee_get_bytes (ee_put_bytes dev a bs) a (length bs) = bs.
Proof.
  intros Ha Hsz Hok. unfold ee_get_bytes.
  apply nth_ext with (d := 0) (d' := 0); rewrite length_map, length_seq; [done|].
  intros i Hi.
  rewrite (nth_indep _ 0 ((fun i => ee_read (ee_put_bytes dev a bs) (a + Z.of_nat i)) O))
    by (rewrite length_map, length_seq; done).
  rewrite (map_nth (fun i => ee_read (ee_put_bytes dev a bs) (a + Z.of_nat i))).
  rewrite seq_nth by done. simpl. by apply ee_read_put_bytes_inside.
Qed.

Lemma ee_get_bytes_ext (d1 d2 : E) (a : Z) (n : nat) :
  (forall x, ee_read d1 x = ee_read d2 x) ->
  ee_get_bytes d1 a n = ee_get_bytes d2 a n.
Proof. intros Hx. unfold ee_get_bytes. apply map_ext. intros; apply Hx. Qed.

(** What [saveConfig] reads back on a lawful device is what it wrote. *)
Lemma ee_get_put (dev : E) (a : Z) (cfg : configuration) :
  wf_configuration cfg = true ->
  0 <= a -> a + 82 <= ee_length dev ->
  ee_get (snd (ee_commit (ee_put dev a cfg))) a = cfg.
Proof.
  intros Hwf Ha Hsz. unfold ee_get, ee_put.
  rewrite (ee_get_bytes_ext _ (ee_put_bytes dev a (raw_bytes cfg)))
    by apply ee_read_commit.
  rewrite <- (length_raw_bytes cfg Hwf).
  rewrite ee_get_put_bytes; [by apply of_raw_bytes_raw_bytes|done| |].
  - rewrite length_raw_bytes by done. unfold sizeof_configuration. lia.
  - by apply bytes_ok_raw_bytes.
Qed.

Lemma ee_marker_put (dev : E) (a m : Z) (cfg : configuration) :
  0 <= a < ee_length dev -> 0 <= m < 256 ->
  ee_read (snd (ee_commit (ee_put (ee_write dev a m) (a + 1) cfg))) a = m.
Proof.
  intros Ha Hm. rewrite ee_read_commit. unfold ee_put.
  rewrite ee_read_put_bytes_outside by lia.
  rewrite ee_read_write_eq by done. by apply Z.mod_small.
Qed.

End LawfulEeprom.

(** The reference device is lawful. *)
Lemma ram_length_write_nat (dev : RamEeprom) (a v : Z) :
  length (ram (ram_write dev a v)) = length (ram dev).
Proof.
  unfold ram_write. destruct (_ && _); simpl; [|done]. by rewrite length_insert.
Qed.

Lemma ram_length_begin (dev : RamEeprom) (n : Z) :
  0 < n -> ram_length (ram_begin dev n) = n.
Proof. intros Hn. unfold ram_length; simpl. rewrite length_resize. lia. Qed.

Lemma ram_length_commit (dev : RamEeprom) :
  ram_length (snd (ram_commit dev)) = ram_length dev.
Proof.
  unfold ram_commit.
  destruct (Nat.eqb _ _); [done|]. by destruct (flash_ok dev).
Qed.

Lemma ram_read_write_eq (dev : RamEeprom) (a v : Z) :
  0 <= a < ram_length dev -> ram_read (ram_write dev a v) a = v mod 256.
Proof.
  unfold ram_length. intros Ha. unfold ram_read, ram_write.
  assert (Hin : (0 <=? a) && (a <? Z.of_nat (length (ram dev))) = true)
    by (apply andb_true_iff; lia).
  rewrite Hin. simpl. rewrite length_insert, Hin.
  apply nth_lookup_Some with (d := 0).
  apply list_lookup_insert_eq. lia.
Qed.

Lemma ram_read_write_ne (dev : RamEeprom) (a b v : Z) :
  a <> b -> ram_read (ram_write dev a v) b = ram_read dev b.
Proof.
  intros Hab. unfold ram_read, ram_write.
  destruct ((0 <=? a) && (a <? Z.of_nat (length (ram dev)))) eqn:Hin; [|done].
  simpl. rewrite length_insert.
  destruct ((0 <=? b) && (b <? Z.of_nat (length (ram dev)))) eqn:Hb; [|done].
  apply andb_true_iff in Hin, Hb.
  rewrite !nth_lookup. rewrite list_lookup_insert_ne; [done|]. lia.
Qed.

Lemma ram_read_commit (dev : RamEeprom) (a : Z) :
  ram_read (snd (ram_commit dev)) a = ram_read dev a.
Proof.
  unfold ram_commit.
  destruct (Nat.eqb _ _); [done|]. by destruct (flash_ok dev).
Qed.

Lemma RamEeprom_lawful : EEPROM_Lawful RamEeprom.
Proof.
  split.
  - apply ram_length_begin.
  - intros dev a v. cbn. unfold ram_length. by rewrite ram_length_write_nat.
  - apply ram_length_commit.
  - apply ram_read_write_eq.
  - apply ram_read_write_ne.
  - apply ram_read_commit.
Qed.

#[global] Existing Instance RamEeprom_lawful.

Lemma nth_replicate_same {A : Type} (n i : nat) (x : A) :
  nth i (replicate n x) x = x.
Proof.
  revert i; induction n as [|n IH]; intros [|i]; simpl; done.
Qed.

(** ** The facade, ESP8266 variant *)

Section ESP8266_Facts.
Context {E : Type} `{EEPROM_Rotate E}.
Implicit Types (st : ESP8266.Storage E) (cfg : configuration).

Lemma saveConfig_uninitialized st cfg :
  ESP8266.initialized st = false ->
  ESP8266.saveConfig st cfg = (false, ESP8266.set_lastError st NOT_INITIALIZED).
Proof. intros Hi. unfold ESP8266.saveConfig. by rewrite Hi. Qed.

Lemma loadConfig_uninitialized st cfg :
  ESP8266.initialized st = false ->
  ESP8266.loadConfig st cfg
  = (false, cfg, ESP8266.set_lastError st NOT_INITIALIZED).
Proof. intros Hi. unfold ESP8266.loadConfig. by rewrite Hi. Qed.

Lemma updateField_uninitialized st (local : configuration) (field value : list Z) :
  ESP8266.initialized st = false ->
  ESP8266.updateField_from local st field value
  = (false, ESP8266.set_lastError st NOT_INITIALIZED).
Proof. intros Hi. unfold ESP8266.updateField_from. by rewrite Hi. Qed.

Lemma clear_uninitialized st :
  ESP8266.initialized st = false ->
  ESP8266.clear st = (false, ESP8266.set_lastError st NOT_INITIALIZED).
Proof. intros Hi. unfold ESP8266.clear. by rewrite Hi. Qed.

(** [saveConfig] on an initialized facade, by the outcome of the commit and
    of the read-back comparison. *)
Lemma saveConfig_initialized st cfg :
  ESP8266.initialized st = true ->
  let dev := snd (ee_commit (staged (ESP8266.eeprom st) cfg)) in
  ESP8266.saveConfig st cfg =
  if negb (fst (ee_commit (staged (ESP8266.eeprom st) cfg)))
  then (false, ESP8266.set_lastError (ESP8266.set_eeprom st dev) COMMIT_FAILED)
  else if bool_decide (readback_matches dev cfg)
       then (true, ESP8266.set_lastError (ESP8266.set_eeprom st dev) NONE)
       else (false, ESP8266.set_lastError (ESP8266.set_eeprom st dev) WRITE_FAILED).
Proof.
  intros Hi dev. unfold ESP8266.saveConfig, staged in *. rewrite Hi.
  subst dev. cbn [negb].
  destruct (ee_commit _) as [committed e3]. cbn [fst snd].
  destruct committed; cbn [negb]; [|done].
  unfold readback_matches. rewrite !strcmp_eqb. cbn [checksum set_checksum].
  destruct (Z.eqb_spec (ee_read e3 EEPROM_START) 1) as [Hm|Hm]; cbn [andb negb];
    [|rewrite bool_decide_eq_false_2; [done|tauto]].
  destruct (Z.eqb_spec (checksum (ee_get e3 (EEPROM_START + 1)))
                       (calculateChecksum cfg)) as [Hc|Hc]; cbn [andb negb];
    [|rewrite bool_decide_eq_false_2; [done|tauto]].
  repeat match goal with
  | |- context [bool_decide (c_str ?a = c_str ?b)] =>
      destruct (decide (c_str a = c_str b)) as [?|?];
      [rewrite (bool_decide_eq_true_2 (c_str a = c_str b)) by done
      |rewrite (bool_decide_eq_false_2 (c_str a = c_str b)) by done];
      cbn [andb negb]
  end;
  try (rewrite bool_decide_eq_false_2; [done|intuition congruence]).
  rewrite bool_decide_eq_true_2; [done|]. intuition congruence.
Qed.

End ESP8266_Facts.

Section ESP8266_Claims.
Context {E : Type} `{EEPROM_Rotate E}.
Implicit Types (st : ESP8266.Storage E) (cfg : configuration).

(** C10. On the ESP8266 variant [begin()] returns true from every state and
    leaves the facade initialized: [initialized] is assigned [true] right
    after [eeprom.begin], so the branch that sets [NOT_INITIALIZED] is never
    taken. A first call ends with [lastError = NONE]. *)
Theorem begin_never_fails st :
  fst (ESP8266.begin st) = true /\
  ESP8266.initialized (snd (ESP8266.begin st)) = true /\
  (ESP8266.initialized st = false ->
   ESP8266.lastError (snd (ESP8266.begin st)) = NONE /\
   ESP8266.eeprom (snd (ESP8266.begin st))
   = ee_begin (ESP8266.eeprom st) EEPROM_SIZE).
Proof.
  unfold ESP8266.begin. destruct (ESP8266.initialized st) eqn:Hi; cbn.
  - by rewrite Hi.
  - done.
Qed.

(** C8. On the block-storage variant [saveConfig] returns true only when it
    was initialized, the commit succeeded, and the marker and record read
    back from the committed device are the marker 1, the computed checksum
    and the four strings that were written. When the commit succeeded and
    the read-back differs in any of these, it returns false with
    [WRITE_FAILED]; every false return leaves an error other than [NONE]. *)
Theorem saveConfig_readback_verified st cfg :
  (fst (ESP8266.saveConfig st cfg) = true ->
   ESP8266.initialized st = true /\
   fst (ee_commit (staged (ESP8266.eeprom st) cfg)) = true /\
   ESP8266.eeprom (snd (ESP8266.saveConfig st cfg))
   = snd (ee_commit (staged (ESP8266.eeprom st) cfg)) /\
   readback_matches (ESP8266.eeprom (snd (ESP8266.saveConfig st cfg))) cfg) /\
  (ESP8266.initialized st = true ->
   fst (ee_commit (staged (ESP8266.eeprom st) cfg)) = true ->
   ~ readback_matches (snd (ee_commit (staged (ESP8266.eeprom st) cfg))) cfg ->
   fst (ESP8266.saveConfig st cfg) = false /\
   ESP8266.lastError (snd (ESP8266.saveConfig st cfg)) = WRITE_FAILED) /\
  (fst (ESP8266.saveConfig st cfg) = false ->
   ESP8266.lastError (snd (ESP8266.saveConfig st cfg)) <> NONE).
Proof.
  destruct (ESP8266.initialized st) eqn:Hi.
  - rewrite (saveConfig_initialized st cfg Hi). cbv zeta.
    destruct (ee_commit (staged (ESP8266.eeprom st) cfg)) as [committed dev].
    cbn [fst snd].
    destruct committed; cbn [negb].
    + destruct (decide (readback_matches dev cfg)) as [Hr|Hr].
      * rewrite bool_decide_eq_true_2 by done. cbn [fst snd].
        split; [done|]. split; [tauto|done].
      * rewrite bool_decide_eq_false_2 by done. cbn [fst snd].
        split; [done|]. split; done.
    + cbn [fst snd]. split; [done|]. split; done.
  - rewrite (saveConfig_uninitialized st cfg Hi). cbn [fst snd].
    split; [done|]. split; done.
Qed.

(** C9 (block-storage half). Before [begin()], each of [saveConfig],
    [loadConfig], [updateField] and [clear] returns false, sets
    [NOT_INITIALIZED], and leaves the device and the caller's record as
    they were. *)
Lemma fail_fast_ESP8266 st cfg (field value : list Z) :
  ESP8266.initialized st = false ->
  ESP8266.saveConfig st cfg = (false, ESP8266.set_lastError st NOT_INITIALIZED) /\
  ESP8266.loadConfig st cfg = (false, cfg, ESP8266.set_lastError st NOT_INITIALIZED) /\
  ESP8266.updateField st field value = (false, ESP8266.set_lastError st NOT_INITIALIZED) /\
  ESP8266.clear st = (false, ESP8266.set_lastError st NOT_INITIALIZED).
Proof.
  intros Hi. repeat split.
  - by apply saveConfig_uninitialized.
  - by apply loadConfig_uninitialized.
  - by apply updateField_uninitialized.
  - by apply clear_uninitialized.
Qed.

End ESP8266_Claims.

(** ** The facade, ESP32 variant *)

Section ESP32_Facts.
Context {P : Type} `{Preferences P}.
Implicit Types (st : ESP32.Storage P) (cfg : configuration).

Lemma fail_fast_ESP32 st cfg (field value : list Z) :
  ESP32.initialized st = false ->
  ESP32.saveConfig st cfg = (false, ESP32.set_lastError st NOT_INITIALIZED) /\
  ESP32.loadConfig st cfg = (false, cfg, ESP32.set_lastError st NOT_INITIALIZED) /\
  ESP32.updateField st field value = (false, ESP32.set_lastError st NOT_INITIALIZED) /\
  ESP32.clear st = (false, ESP32.set_lastError st NOT_INITIALIZED).
Proof.
  intros Hi.
  unfold ESP32.saveConfig, ESP32.loadConfig, ESP32.updateField, ESP32.clear.
  by rewrite Hi.
Qed.

End ESP32_Facts.

(** C9. Fail-fast before initialization, on both variants: with
    [initialized = false], each of [saveConfig], [loadConfig], [updateField]
    and [clear] returns false and sets [NOT_INITIALIZED]; the resulting state
    differs from the starting one in [lastError] only, so the backend object
    and what it persists are untouched, and [loadConfig] hands the caller's
    record back unchanged. *)
Theorem fail_fast_before_begin
  {E : Type} `{EEPROM_Rotate E} {P : Type} `{Preferences P}
  (st8 : ESP8266.Storage E) (st32 : ESP32.Storage P)
  (cfg : configuration) (field value : list Z) :
  ESP8266.initialized st8 = false ->
  ESP32.initialized st32 = false ->
  let fail8 := ESP8266.mkStorage (ESP8266.eeprom st8) false NOT_INITIALIZED in
  let fail32 := ESP32.mkStorage (ESP32.preferences st32) false NOT_INITIALIZED in
  (ESP8266.saveConfig st8 cfg = (false, fail8) /\
   ESP8266.loadConfig st8 cfg = (false, cfg, fail8) /\
   ESP8266.updateField st8 field value = (false, fail8) /\
   ESP8266.clear st8 = (false, fail8)) /\
  (ESP32.saveConfig st32 cfg = (false, fail32) /\
   ESP32.loadConfig st32 cfg = (false, cfg, fail32) /\
   ESP32.updateField st32 field value = (false, fail32) /\
   ESP32.clear st32 = (false, fail32)).
Proof.
  intros H8 H32 fail8 fail32.
  assert (ESP8266.set_lastError st8 NOT_INITIALIZED = fail8) as <-
    by (unfold ESP8266.set_lastError, fail8; by rewrite H8).
  assert (ESP32.set_lastError st32 NOT_INITIALIZED = fail32) as <-
    by (unfold ESP32.set_lastError, fail32; by rewrite H32).
  split; [by apply fail_fast_ESP8266 | by apply fail_fast_ESP32].
Qed.

Lemma fail_fast_before_begin_witness :
  ESP8266.saveConfig boot8266 sensor1_cfg
  = (false, ESP8266.mkStorage fresh_eeprom false NOT_INITIALIZED) /\
  ESP32.clear boot32
  = (false, ESP32.mkStorage fresh_prefs false NOT_INITIALIZED).
Proof.
  pose proof (fail_fast_before_begin boot8266 boot32 sensor1_cfg
                (lit "name") (lit "x") eq_refl eq_refl) as [H8 H32].
  split; [apply H8 | apply H32].
Defined.

Lemma saveConfig_readback_verified_witness :
  readback_matches
    (ESP8266.eeprom (snd (ESP8266.saveConfig ready8266 sensor1_cfg)))
    sensor1_cfg /\
  (fst (ESP8266.saveConfig worn8266 sensor1_cfg) = false /\
   ESP8266.lastError (snd (ESP8266.saveConfig worn8266 sensor1_cfg))
   = WRITE_FAILED).
Proof.
  split.
  - apply (proj1 (saveConfig_readback_verified ready8266 sensor1_cfg)).
    vm_compute. reflexivity.
  - apply (proj1 (proj2 (saveConfig_readback_verified worn8266 sensor1_cfg)));
      [reflexivity | reflexivity |].
    intros [Hm _]. vm_compute in Hm. discriminate Hm.
Defined.

(** ** Save, then load, on a lawful EEPROM *)

Section ESP8266_Roundtrip.
Context {E : Type} `{EEPROM_Lawful E}.
Implicit Types (st : ESP8266.Storage E) (cfg : configuration).

Lemma stored_after_commit (dev : E) cfg :
  wf_configuration cfg = true ->
  ee_length dev = EEPROM_SIZE ->
  let dev' := snd (ee_commit (staged dev cfg)) in
  ee_read dev' EEPROM_START = 1 /\
  ee_get dev' (EEPROM_START + 1) = set_checksum cfg (calculateChecksum cfg).
Proof.
  intros Hwf Hsz dev'. subst dev'. unfold staged. split.
  - apply ee_marker_put; [|lia]. rewrite Hsz. unfold EEPROM_START, EEPROM_SIZE. lia.
  - apply ee_get_put.
    + apply wf_set_checksum; [done|]. apply calculateChecksum_range.
    + unfold EEPROM_START. lia.
    + rewrite ee_length_write, Hsz. unfold EEPROM_START, EEPROM_SIZE. lia.
Qed.

Lemma readback_after_commit (dev : E) cfg :
  wf_configuration cfg = true ->
  ee_length dev = EEPROM_SIZE ->
  readback_matches (snd (ee_commit (staged dev cfg))) cfg.
Proof.
  intros Hwf Hsz.
  destruct (stored_after_commit dev cfg Hwf Hsz) as [Hm Hg].
  unfold readback_matches. rewrite Hm, Hg. done.
Qed.

(** On a lawful device the read-back comparison cannot fail: [saveConfig]
    succeeds exactly when the commit does. *)
Lemma saveConfig_lawful st cfg :
  ESP8266.initialized st = true ->
  wf_configuration cfg = true ->
  ee_length (ESP8266.eeprom st) = EEPROM_SIZE ->
  fst (ee_commit (staged (ESP8266.eeprom st) cfg)) = true ->
  ESP8266.saveConfig st cfg =
  (true, ESP8266.mkStorage (snd (ee_commit (staged (ESP8266.eeprom st) cfg)))
                           true NONE).
Proof.
  intros Hi Hwf Hsz Hc. rewrite (saveConfig_initialized st cfg Hi). cbv zeta.
  rewrite Hc. cbn [negb].
  rewrite bool_decide_eq_true_2 by (by apply readback_after_commit).
  unfold ESP8266.set_lastError, ESP8266.set_eeprom. cbn. by rewrite Hi.
Qed.

(** [loadConfig] of what [saveConfig] stored: accepted exactly when the
    checksum field the caller passed to [saveConfig] was zero. *)
Lemma loadConfig_after_save st cfg (out : configuration) :
  ESP8266.initialized st = true ->
  wf_configuration cfg = true ->
  ee_length (ESP8266.eeprom st) = EEPROM_SIZE ->
  fst (ee_commit (staged (ESP8266.eeprom st) cfg)) = true ->
  strlen (wifi_ssid cfg) <> 0 -> strlen (wifi_pwd cfg) <> 0 ->
  let st' := snd (ESP8266.saveConfig st cfg) in
  ESP8266.loadConfig st' out =
  if checksum cfg =? 0
  then (true, set_checksum cfg 0, ESP8266.set_lastError st' NONE)
  else (false, set_checksum cfg 0, ESP8266.set_lastError st' VALIDATION_FAILED).
Proof.
  intros Hi Hwf Hsz Hc Hs Hp st'. subst st'.
  rewrite (saveConfig_lawful st cfg Hi Hwf Hsz Hc). cbn [snd].
  destruct (stored_after_commit (ESP8266.eeprom st) cfg Hwf Hsz) as [Hm Hg].
  unfold ESP8266.loadConfig. cbn [ESP8266.initialized ESP8266.eeprom negb].
  rewrite Hm, Hg, Z.eqb_refl. cbn [negb checksum set_checksum].
  rewrite set_checksum_twice.
  apply wf_configuration_spec in Hwf as (_ & _ & _ & _ & Hrange).
  destruct (Z.eqb_spec (checksum cfg) 0) as [Hz|Hz].
  - rewrite (proj2 (calculateChecksum_agree_iff cfg Hrange) Hz), Z.eqb_refl.
    cbn [negb wifi_ssid wifi_pwd set_checksum].
    destruct (Z.eqb_spec (strlen (wifi_ssid cfg)) 0); [done|].
    destruct (Z.eqb_spec (strlen (wifi_pwd cfg)) 0); done.
  - destruct (Z.eqb_spec (calculateChecksum cfg)
                         (calculateChecksum (set_checksum cfg 0))) as [He|He].
    + by apply calculateChecksum_agree_iff in He.
    + done.
Qed.

Lemma calculateChecksum_nonzero cfg :
  wf_configuration cfg = true -> checksum cfg = 0 ->
  strlen (wifi_ssid cfg) <> 0 ->
  calculateChecksum cfg <> 0.
Proof.
  intros Hwf Hz Hs.
  apply wf_configuration_spec in Hwf
    as ([L1 B1] & [L2 B2] & [L3 B3] & [L4 B4] & _).
  rewrite calculateChecksum_sum, sumZ_raw_bytes, Hz.
  rewrite Z.div_0_l, Zmod_0_l by lia. unfold fields_sum.
  pose proof (sumZ_bounds _ B1). pose proof (sumZ_bounds _ B2).
  pose proof (sumZ_bounds _ B3). pose proof (sumZ_bounds _ B4).
  assert (0 < sumZ (wifi_ssid cfg)).
  { apply sumZ_pos; [done|]. by rewrite <- strlen_zero_iff. }
  unfold FIELD_SIZE in *. rewrite L1, L2, L3, L4 in *.
  rewrite Z.mod_small; lia.
Qed.

End ESP8266_Roundtrip.

Section ESP32_Load.
Context {P : Type} `{Preferences P}.
Implicit Types (st : ESP32.Storage P) (cfg out : configuration).

(** [loadConfig] on an initialized facade, gate by gate. *)
Lemma loadConfig32_initialized st out :
  ESP32.initialized st = true ->
  let p := ESP32.preferences st in
  ESP32.loadConfig st out =
  if strlen (getString p (lit "name") (lit "")) =? 0
  then (false, out, ESP32.set_lastError st VALIDATION_FAILED)
  else if negb (getUShort p (lit "checksum") 0
                =? calculateChecksum (copied_out p out))
  then (false, copied_out p out, ESP32.set_lastError st VALIDATION_FAILED)
  else if (strlen (wifi_ssid (copied_out p out)) =? 0)
          || (strlen (wifi_pwd (copied_out p out)) =? 0)
  then (false, copied_out p out, ESP32.set_lastError st VALIDATION_FAILED)
  else (true, copied_out p out, ESP32.set_lastError st NONE).
Proof.
  intros Hi p. unfold ESP32.loadConfig. rewrite Hi. cbn [negb]. done.
Qed.

Lemma loadConfig32_true st out :
  fst (fst (ESP32.loadConfig st out)) = true ->
  ESP32.initialized st = true /\
  strlen (getString (ESP32.preferences st) (lit "name") (lit "")) <> 0 /\
  snd (fst (ESP32.loadConfig st out)) = copied_out (ESP32.preferences st) out /\
  strlen (wifi_ssid (copied_out (ESP32.preferences st) out)) <> 0 /\
  strlen (wifi_pwd (copied_out (ESP32.preferences st) out)) <> 0.
Proof.
  destruct (ESP32.initialized st) eqn:Hi.
  - rewrite (loadConfig32_initialized st out Hi). cbv zeta.
    destruct (Z.eqb_spec (strlen (getString (ESP32.preferences st)
                                            (lit "name") (lit ""))) 0);
      [done|].
    destruct (negb _); [done|].
    destruct (Z.eqb_spec (strlen (wifi_ssid (copied_out (ESP32.preferences st) out))) 0);
      [done|].
    destruct (Z.eqb_spec (strlen (wifi_pwd (copied_out (ESP32.preferences st) out))) 0);
      done.
  - unfold ESP32.loadConfig. rewrite Hi. done.
Qed.

End ESP32_Load.

Section ESP8266_Load.
Context {E : Type} `{EEPROM_Rotate E}.
Implicit Types (st : ESP8266.Storage E) (cfg out : configuration).

(** [loadConfig] on an initialized facade, gate by gate. *)
Lemma loadConfig_initialized st out :
  ESP8266.initialized st = true ->
  let stored := ee_get (ESP8266.eeprom st) (EEPROM_START + 1) in
  ESP8266.loadConfig st out =
  if negb (ee_read (ESP8266.eeprom st) EEPROM_START =? 1)
  then (false, out, ESP8266.set_lastError st VALIDATION_FAILED)
  else if negb (checksum stored =? calculateChecksum (set_checksum stored 0))
  then (false, set_checksum stored 0, ESP8266.set_lastError st VALIDATION_FAILED)
  else if (strlen (wifi_ssid stored) =? 0) || (strlen (wifi_pwd stored) =? 0)
  then (false, set_checksum stored 0, ESP8266.set_lastError st VALIDATION_FAILED)
  else (true, set_checksum stored 0, ESP8266.set_lastError st NONE).
Proof.
  intros Hi stored. unfold ESP8266.loadConfig. rewrite Hi. cbn [negb]. done.
Qed.

(** [loadConfig] only reads: the device and [initialized] are as before. *)
Lemma loadConfig_reads_only st out :
  ESP8266.eeprom (snd (ESP8266.loadConfig st out)) = ESP8266.eeprom st /\
  ESP8266.initialized (snd (ESP8266.loadConfig st out)) = ESP8266.initialized st.
Proof.
  unfold ESP8266.loadConfig.
  repeat match goal with
  | |- context [if ?b then _ else _] => destruct b
  end; done.
Qed.

(** A failed [loadConfig] on an initialized facade reports
    [VALIDATION_FAILED], a successful one [NONE]. *)
Lemma loadConfig_lastError st out :
  ESP8266.initialized st = true ->
  ESP8266.lastError (snd (ESP8266.loadConfig st out))
  = if fst (fst (ESP8266.loadConfig st out)) then NONE else VALIDATION_FAILED.
Proof.
  intros Hi. rewrite (loadConfig_initialized st out Hi). cbv zeta.
  destruct (negb (ee_read _ _ =? 1)); [done|].
  destruct (negb (checksum _ =? _)); [done|].
  destruct (_ || _); done.
Qed.

(** The successful [loadConfig] does not look at what [out] held. *)
Lemma loadConfig_out_irrelevant st out1 out2 :
  fst (fst (ESP8266.loadConfig st out1)) = fst (fst (ESP8266.loadConfig st out2)) /\
  snd (ESP8266.loadConfig st out1) = snd (ESP8266.loadConfig st out2) /\
  (fst (fst (ESP8266.loadConfig st out1)) = true ->
   snd (fst (ESP8266.loadConfig st out1)) = snd (fst (ESP8266.loadConfig st out2))).
Proof.
  unfold ESP8266.loadConfig.
  repeat match goal with
  | |- context [if ?b then _ else _] => destruct b
  end; done.
Qed.

Lemma ee_get_bytes_erased (dev : E) (a : Z) (n : nat) :
  (forall i, 0 <= i < Z.of_nat n -> ee_read dev (a + i) = 0) ->
  ee_get_bytes dev a n = replicate n 0.
Proof.
  intros Hz. unfold ee_get_bytes.
  apply nth_ext with (d := 0) (d' := 0);
    rewrite length_map, length_seq; [by rewrite length_replicate|].
  intros i Hi.
  rewrite (nth_indep _ 0 ((fun i => ee_read dev (a + Z.of_nat i)) O))
    by (rewrite length_map, length_seq; done).
  rewrite (map_nth (fun i => ee_read dev (a + Z.of_nat i))).
  rewrite seq_nth by done. cbn [Nat.add].
  rewrite Hz by lia. symmetry. apply nth_lookup_Some with (d := 0).
  by apply lookup_replicate_2.
Qed.

Lemma ee_get_erased (dev : E) :
  record_erased dev -> ee_get dev (EEPROM_START + 1) = zero_cfg.
Proof.
  intros Hz. unfold ee_get, zero_cfg. f_equal.
  apply ee_get_bytes_erased. intros i Hi. apply Hz.
  unfold sizeof_configuration in Hi. lia.
Qed.

Lemma loadConfig_erased st out :
  ESP8266.initialized st = true ->
  record_erased (ESP8266.eeprom st) ->
  fst (fst (ESP8266.loadConfig st out)) = false /\
  ESP8266.lastError (snd (ESP8266.loadConfig st out)) = VALIDATION_FAILED.
Proof.
  intros Hi Hz. rewrite (loadConfig_initialized st out Hi). cbv zeta.
  rewrite (ee_get_erased _ Hz).
  destruct (negb _); [done|].
  destruct (negb _); [done|].
  change (strlen (wifi_ssid zero_cfg) =? 0) with true. done.
Qed.

End ESP8266_Load.

Lemma ram_zero_record_erased (n : nat) (fl : list Z) (ok : bool) :
  record_erased {| ram := replicate n 0; flash := fl; flash_ok := ok |}.
Proof.
  intros i Hi. change (ram_read (mkRamEeprom (replicate n 0) fl ok)
                                (EEPROM_START + 1 + i) = 0).
  unfold ram_read. cbn [ram].
  destruct (_ && _); [apply nth_replicate_same | reflexivity].
Qed.

(** C6. Erased storage is rejected on both variants. With the facade
    initialized and every persisted byte of the record reading as zero
    (ESP8266: the 82 record bytes, whatever the marker byte holds; ESP32: the
    four strings empty and the checksum 0), [loadConfig] returns false with
    [VALIDATION_FAILED] -- although the all-zero record is consistent with
    its own checksum. *)
Theorem erased_storage_rejected
  {E : Type} `{EEPROM_Rotate E} {P : Type} `{Preferences P}
  (st8 : ESP8266.Storage E) (st32 : ESP32.Storage P) (out : configuration) :
  ESP8266.initialized st8 = true ->
  ESP32.initialized st32 = true ->
  record_erased (ESP8266.eeprom st8) ->
  prefs_erased (ESP32.preferences st32) ->
  (fst (fst (ESP8266.loadConfig st8 out)) = false /\
   ESP8266.getLastError (snd (ESP8266.loadConfig st8 out)) = VALIDATION_FAILED) /\
  (fst (fst (ESP32.loadConfig st32 out)) = false /\
   ESP32.getLastError (snd (ESP32.loadConfig st32 out)) = VALIDATION_FAILED) /\
  checksum zero_cfg = calculateChecksum (set_checksum zero_cfg 0).
Proof.
  intros Hi8 Hi32 Hz8 (Hname & _). split; [|split].
  - by apply loadConfig_erased.
  - rewrite (loadConfig32_initialized st32 out Hi32). cbv zeta.
    rewrite Hname. done.
  - reflexivity.
Qed.

Lemma erased_storage_rejected_witness :
  fst (fst (ESP8266.loadConfig erased8266 sensor1_cfg)) = false /\
  ESP8266.getLastError (snd (ESP8266.loadConfig erased8266 sensor1_cfg))
  = VALIDATION_FAILED.
Proof.
  refine (proj1 (erased_storage_rejected erased8266 ready32 sensor1_cfg
                   eq_refl eq_refl _ _)).
  - apply ram_zero_record_erased.
  - vm_compute. repeat split; reflexivity.
Defined.

(** C5 (as amended). When the stored checksum differs from the recomputed
    one, [loadConfig] returns false with [VALIDATION_FAILED], and the
    caller's record has by then been written: on the ESP8266 variant it holds
    the 80 stored field bytes and a checksum field of 0, on the ESP32 variant
    the stored strings copied into its buffers and a checksum field of 0. *)
Theorem checksum_mismatch_overwrites_out
  {E : Type} `{EEPROM_Rotate E} {P : Type} `{Preferences P}
  (st8 : ESP8266.Storage E) (st32 : ESP32.Storage P) (out : configuration) :
  let stored := ee_get (ESP8266.eeprom st8) (EEPROM_START + 1) in
  let p := ESP32.preferences st32 in
  (ESP8266.initialized st8 = true ->
   ee_read (ESP8266.eeprom st8) EEPROM_START = 1 ->
   checksum stored <> calculateChecksum (set_checksum stored 0) ->
   ESP8266.loadConfig st8 out
   = (false, set_checksum stored 0,
      ESP8266.set_lastError st8 VALIDATION_FAILED)) /\
  (ESP32.initialized st32 = true ->
   strlen (getString p (lit "name") (lit "")) <> 0 ->
   getUShort p (lit "checksum") 0 <> calculateChecksum (copied_out p out) ->
   ESP32.loadConfig st32 out
   = (false, copied_out p out, ESP32.set_lastError st32 VALIDATION_FAILED)).
Proof.
  intros stored p. split.
  - intros Hi Hm Hc. rewrite (loadConfig_initialized st8 out Hi). cbv zeta.
    rewrite Hm. cbn [Z.eqb Pos.eqb negb]. fold stored.
    destruct (Z.eqb_spec (checksum stored)
                (calculateChecksum (set_checksum stored 0))); done.
  - intros Hi Hn Hc. rewrite (loadConfig32_initialized st32 out Hi). cbv zeta.
    fold p. destruct (Z.eqb_spec (strlen (getString p (lit "name") (lit ""))) 0);
      [done|].
    destruct (Z.eqb_spec (getUShort p (lit "checksum") 0)
                (calculateChecksum (copied_out p out))); done.
Qed.

Lemma checksum_mismatch_overwrites_out_witness :
  ESP8266.loadConfig corrupt8266 zero_cfg
  = (false, sensor1_cfg, ESP8266.set_lastError corrupt8266 VALIDATION_FAILED).
Proof.
  refine (proj1 (checksum_mismatch_overwrites_out corrupt8266 ready32 zero_cfg)
            eq_refl _ _).
  - vm_compute. reflexivity.
  - vm_compute. discriminate.
Defined.

(** C5, counterexample. A set marker, a record whose stored checksum (7) is
    not its byte sum, and a zeroed [out]: [loadConfig] fails with
    [VALIDATION_FAILED], and [out] no longer holds what it held before. *)
Lemma failed_load_mutates_out :
  fst (fst (ESP8266.loadConfig corrupt8266 zero_cfg)) = false /\
  ESP8266.getLastError (snd (ESP8266.loadConfig corrupt8266 zero_cfg))
  = VALIDATION_FAILED /\
  raw_bytes (snd (fst (ESP8266.loadConfig corrupt8266 zero_cfg)))
  <> raw_bytes zero_cfg.
Proof. vm_compute. repeat split; discriminate. Qed.

(** ** Save, then load, on the reference key-value store *)

Lemma put_all_nvs (m : gmap (list Z) nvs_value) (cfg : configuration) (sum : Z) :
  strlen (name cfg) <> 0 -> strlen (location cfg) <> 0 ->
  strlen (wifi_ssid cfg) <> 0 -> strlen (wifi_pwd cfg) <> 0 ->
  ESP32.put_all (mkNvsPreferences m true true) cfg sum
  = (true, mkNvsPreferences (entries_after_save m cfg sum) true true).
Proof.
  intros Hn Hl Hs Hp. unfold ESP32.put_all.
  cbn [putString putUShort NvsPreferences_device].
  unfold nvs_putString, nvs_putUShort.
  cbn [started nvs_ok andb entries].
  destruct (Z.eqb_spec (strlen (name cfg)) 0); [done|].
  destruct (Z.eqb_spec (strlen (location cfg)) 0); [done|].
  destruct (Z.eqb_spec (strlen (wifi_ssid cfg)) 0); [done|].
  destruct (Z.eqb_spec (strlen (wifi_pwd cfg)) 0); [done|].
  reflexivity.
Qed.

Lemma getString_after_save (m : gmap (list Z) nvs_value)
  (cfg : configuration) (sum : Z) :
  let p := mkNvsPreferences (entries_after_save m cfg sum) true true in
  getString p (lit "name") (lit "") = c_str (name cfg) /\
  getString p (lit "location") (lit "") = c_str (location cfg) /\
  getString p (lit "wifi_ssid") (lit "") = c_str (wifi_ssid cfg) /\
  getString p (lit "wifi_pwd") (lit "") = c_str (wifi_pwd cfg) /\
  getUShort p (lit "checksum") 0 = sum mod 65536.
Proof.
  intros p. subst p. cbn [getString getUShort NvsPreferences_device].
  unfold nvs_getString, nvs_getUShort, entries_after_save.
  cbn [started entries].
  change (c_str (lit "name")) with (lit "name").
  change (c_str (lit "location")) with (lit "location").
  change (c_str (lit "wifi_ssid")) with (lit "wifi_ssid").
  change (c_str (lit "wifi_pwd")) with (lit "wifi_pwd").
  change (c_str (lit "checksum")) with (lit "checksum").
  repeat split; by simplify_map_eq.
Qed.

Lemma strlcpy_c_str (dst src : list Z) (size : nat) :
  strlcpy dst (c_str src) size = strlcpy dst src size.
Proof. unfold strlcpy. by rewrite c_str_idemp. Qed.

(** A zero-filled buffer is reproduced by copying its string into zeros. *)
Lemma copies_exactly_buffer_of (s : list Z) :
  copies_exactly (replicate FIELD_SIZE 0) (buffer_of s).
Proof.
  unfold copies_exactly, buffer_of, FIELD_SIZE.
  rewrite <- (strlcpy_c_str _ (strlcpy _ _ _)), c_str_strlcpy.
  unfold strlcpy.
  rewrite (c_str_of_nul_free (take 19 (c_str s)))
    by apply Forall_take, c_str_nul_free.
  rewrite take_take, Nat.min_id. done.
Qed.

Lemma roundtrip_nvs (st : ESP32.Storage NvsPreferences) (R out : configuration) :
  ESP32.initialized st = false ->
  started (ESP32.preferences st) = false ->
  nvs_ok (ESP32.preferences st) = true ->
  checksum R = 0 ->
  strlen (name R) <> 0 -> strlen (location R) <> 0 ->
  strlen (wifi_ssid R) <> 0 -> strlen (wifi_pwd R) <> 0 ->
  copies_exactly (name out) (name R) ->
  copies_exactly (location out) (location R) ->
  copies_exactly (wifi_ssid out) (wifi_ssid R) ->
  copies_exactly (wifi_pwd out) (wifi_pwd R) ->
  let s1 := ESP32.begin st in
  let s2 := ESP32.saveConfig (snd s1) R in
  fst s1 = true /\ fst s2 = true /\
  ESP32.loadConfig (snd s2) out
  = (true, R, ESP32.set_lastError (snd s2) NONE) /\
  getUShort (ESP32.preferences (snd s2)) (lit "checksum") 0
  = calculateChecksum R.
Proof.
  intros Hi Hst Hok Hz Hn Hl Hs Hp Cn Cl Cs Cp.
  destruct st as [[m sd ok] ini err]. cbn in Hi, Hst, Hok. subst ini sd ok.
  change (ESP32.begin _)
    with (true, ESP32.mkStorage (mkNvsPreferences m true true) true NONE).
  cbn [fst snd].
  assert (Hsave : ESP32.saveConfig
            (ESP32.mkStorage (mkNvsPreferences m true true) true NONE) R
          = (true, ESP32.mkStorage
                     (mkNvsPreferences
                        (entries_after_save m R (calculateChecksum R)) true true)
                     true NONE)).
  { unfold ESP32.saveConfig.
    cbv [ESP32.initialized ESP32.preferences negb checksum set_checksum].
    by rewrite put_all_nvs. }
  rewrite Hsave. cbn [fst snd ESP32.preferences].
  destruct (getString_after_save m R (calculateChecksum R))
    as (Gn & Gl & Gs & Gp & Gc).
  cbv zeta in Gn, Gl, Gs, Gp, Gc.
  rewrite Z.mod_small in Gc by apply calculateChecksum_range.
  assert (Hcopy : copied_out
            (mkNvsPreferences (entries_after_save m R (calculateChecksum R))
                              true true) out = R).
  { unfold copied_out. rewrite Gn, Gl, Gs, Gp, !strlcpy_c_str.
    unfold copies_exactly in *. rewrite Cn, Cl, Cs, Cp, <- Hz.
    by destruct R. }
  split; [done|]. split; [done|]. split; [|done].
  rewrite loadConfig32_initialized by done. cbv zeta.
  cbn [ESP32.preferences].
  rewrite Hcopy, Gn, Gc, Z.eqb_refl.
  unfold strlen in Hn |- *. rewrite c_str_idemp.
  destruct (Z.eqb_spec (Z.of_nat (length (c_str (name R)))) 0); [done|].
  cbn [negb]. fold (strlen (wifi_ssid R)). fold (strlen (wifi_pwd R)).
  destruct (Z.eqb_spec (strlen (wifi_ssid R)) 0); [done|].
  destruct (Z.eqb_spec (strlen (wifi_pwd R)) 0); [done|].
  done.
Qed.

(** What the caller finds in [out] after a successful [loadConfig]: the four
    character arrays of [R], byte for byte, and no error reported. *)
Lemma fields_of_loaded (R loaded : configuration) :
  loaded = R ->
  location loaded = location R /\ name loaded = name R /\
  wifi_ssid loaded = wifi_ssid R /\ wifi_pwd loaded = wifi_pwd R.
Proof. by intros ->. Qed.

(** C1 (as amended). Round trip after a first [begin()], for a well-formed
    record [R] with four NUL-terminated buffers and non-empty WiFi fields
    whose checksum field is 0: once the
    backend writes succeed, [saveConfig(R)] returns true and [loadConfig(out)]
    returns true with the four character arrays of [out] equal to those of
    [R] and [lastError = NONE]; the checksum that is nonzero is the persisted
    one, the byte sum of [R]. On the ESP8266 the four read-back comparisons,
    made on the members in place, find equal strings.
    - ESP8266: any lawful device whose commit succeeds.
    - ESP32: the reference store, closed and accepting writes; [name] and
      [location] must be non-empty too (an empty string makes [putString]
      report 0 bytes), and each buffer of [R] must be what copying its string
      into the corresponding buffer of [out] produces. *)
Theorem save_load_roundtrip
  {E : Type} `{EEPROM_Lawful E}
  (se : ESP8266.Storage E) (sp : ESP32.Storage NvsPreferences)
  (R out : configuration) :
  wf_configuration R = true ->
  nul_terminated R = true ->
  checksum R = 0 ->
  strlen (wifi_ssid R) <> 0 -> strlen (wifi_pwd R) <> 0 ->
  (ESP8266.initialized se = false ->
   fst (ee_commit (staged (ee_begin (ESP8266.eeprom se) EEPROM_SIZE) R)) = true ->
   let s1 := ESP8266.begin se in
   let s2 := ESP8266.saveConfig (snd s1) R in
   let r := ESP8266.loadConfig (snd s2) out in
   fst s1 = true /\ fst s2 = true /\ fst (fst r) = true /\
   (location (snd (fst r)) = location R /\ name (snd (fst r)) = name R /\
    wifi_ssid (snd (fst r)) = wifi_ssid R /\
    wifi_pwd (snd (fst r)) = wifi_pwd R) /\
   ESP8266.getLastError (snd r) = NONE /\
   checksum (ee_get (ESP8266.eeprom (snd s2)) (EEPROM_START + 1))
   = calculateChecksum R /\
   strings_equal_in_place R
     (ee_get (ESP8266.eeprom (snd s2)) (EEPROM_START + 1))) /\
  (ESP32.initialized sp = false ->
   started (ESP32.preferences sp) = false ->
   nvs_ok (ESP32.preferences sp) = true ->
   strlen (name R) <> 0 -> strlen (location R) <> 0 ->
   copies_exactly (name out) (name R) ->
   copies_exactly (location out) (location R) ->
   copies_exactly (wifi_ssid out) (wifi_ssid R) ->
   copies_exactly (wifi_pwd out) (wifi_pwd R) ->
   let s1 := ESP32.begin sp in
   let s2 := ESP32.saveConfig (snd s1) R in
   let r := ESP32.loadConfig (snd s2) out in
   fst s1 = true /\ fst s2 = true /\ fst (fst r) = true /\
   (location (snd (fst r)) = location R /\ name (snd (fst r)) = name R /\
    wifi_ssid (snd (fst r)) = wifi_ssid R /\
    wifi_pwd (snd (fst r)) = wifi_pwd R) /\
   ESP32.getLastError (snd r) = NONE /\
   getUShort (ESP32.preferences (snd s2)) (lit "checksum") 0
   = calculateChecksum R) /\
  calculateChecksum R <> 0.
Proof.
  intros Hwf Hterm Hz Hs Hp. split; [|split].
  - intros Hi Hc s1 s2 r.
    assert (Hb : s1 = (true, ESP8266.mkStorage
                               (ee_begin (ESP8266.eeprom se) EEPROM_SIZE)
                               true NONE)).
    { subst s1. unfold ESP8266.begin. by rewrite Hi. }
    assert (Hsz : ee_length (ee_begin (ESP8266.eeprom se) EEPROM_SIZE)
                  = EEPROM_SIZE) by (by apply ee_length_begin).
    subst r s2. rewrite Hb. cbn [fst snd].
    set (st1 := ESP8266.mkStorage _ true NONE).
    pose proof (loadConfig_after_save st1 R out eq_refl Hwf Hsz Hc Hs Hp) as Hl.
    cbv zeta in Hl. rewrite Hz in Hl. cbn [Z.eqb] in Hl.
    rewrite <- Hz, set_checksum_same in Hl.
    rewrite Hl.
    rewrite (saveConfig_lawful st1 R eq_refl Hwf Hsz Hc).
    cbn [fst snd ESP8266.eeprom].
    split; [done|]. split; [done|]. split; [done|].
    split; [by apply fields_of_loaded|]. split; [done|].
    destruct (stored_after_commit
                (ee_begin (ESP8266.eeprom se) EEPROM_SIZE) R Hwf Hsz) as [_ Hg].
    cbv zeta in Hg. change (ESP8266.eeprom st1)
      with (ee_begin (ESP8266.eeprom se) EEPROM_SIZE).
    rewrite Hg. split; [done|].
    by apply strings_equal_in_place_terminated.
  - intros Hi Hst Hok Hn Hl Cn Cl Cs Cp s1 s2 r.
    destruct (roundtrip_nvs sp R out Hi Hst Hok Hz Hn Hl Hs Hp Cn Cl Cs Cp)
      as (Hb & Hsv & Hld & Hck).
    cbv zeta in Hb, Hsv, Hld, Hck. subst r s2 s1. rewrite Hld.
    cbn [fst snd].
    split; [done|]. split; [done|]. split; [done|].
    split; [by apply fields_of_loaded|]. done.
  - by apply calculateChecksum_nonzero.
Qed.

Lemma save_load_roundtrip_witness :
  (fst (fst (ESP8266.loadConfig saved8266 zero_cfg)) = true /\
   name (snd (fst (ESP8266.loadConfig saved8266 zero_cfg))) = name sensor1_cfg) /\
  (fst (fst (ESP32.loadConfig saved32 zero_cfg)) = true /\
   name (snd (fst (ESP32.loadConfig saved32 zero_cfg))) = name sensor1_cfg).
Proof.
  assert (Hn : strlen (name sensor1_cfg) <> 0) by (vm_compute; discriminate).
  assert (Hl : strlen (location sensor1_cfg) <> 0) by (vm_compute; discriminate).
  assert (Hs : strlen (wifi_ssid sensor1_cfg) <> 0) by (vm_compute; discriminate).
  assert (Hp : strlen (wifi_pwd sensor1_cfg) <> 0) by (vm_compute; discriminate).
  pose proof (save_load_roundtrip boot8266 boot32 sensor1_cfg zero_cfg
                eq_refl eq_refl eq_refl Hs Hp) as (H8 & H32 & _).
  specialize (H8 eq_refl eq_refl).
  specialize (H32 eq_refl eq_refl eq_refl Hn Hl
                (copies_exactly_buffer_of _) (copies_exactly_buffer_of _)
                (copies_exactly_buffer_of _) (copies_exactly_buffer_of _)).
  cbv zeta in H8, H32.
  split.
  - exact (conj (proj1 (proj2 (proj2 H8)))
                (proj1 (proj2 (proj1 (proj2 (proj2 (proj2 H8))))))).
  - exact (conj (proj1 (proj2 (proj2 H32)))
                (proj1 (proj2 (proj1 (proj2 (proj2 (proj2 H32))))))).
Defined.

(** C1, counterexample. The specification's own scenario on the reference
    EEPROM: [begin()], [saveConfig(sensor1_cfg)], [loadConfig(out)] all
    return true and the four strings come back, but the checksum field of
    [out] is 0, not nonzero. For the same record with a checksum field of 1
    (still valid: both WiFi fields are non-empty) [saveConfig] returns true
    and [loadConfig] returns false. When the flash refuses the commit,
    [saveConfig] itself returns false. On the reference key-value store a
    valid record without a location is not saved ([WRITE_FAILED]), and a
    valid record with bytes of an older name behind the terminator is saved
    but not loaded into a zeroed [out]. And for a valid record whose
    password fills its buffer, the read-back comparison of the program,
    which reads [wifi_pwd] on into the checksum member, compares the
    caller's checksum bytes with the computed ones and finds them different. *)
Lemma roundtrip_checksum_not_nonzero :
  (fst (ESP8266.begin boot8266) = true /\
   fst (ESP8266.saveConfig ready8266 sensor1_cfg) = true /\
   fst (fst (ESP8266.loadConfig saved8266 zero_cfg)) = true /\
   checksum (snd (fst (ESP8266.loadConfig saved8266 zero_cfg))) = 0) /\
  (fst (ESP8266.saveConfig ready8266 (set_checksum sensor1_cfg 1)) = true /\
   fst (fst (ESP8266.loadConfig
               (snd (ESP8266.saveConfig ready8266 (set_checksum sensor1_cfg 1)))
               zero_cfg)) = false) /\
  fst (ESP8266.saveConfig failing8266 sensor1_cfg) = false /\
  (strlen (wifi_ssid noloc_cfg) <> 0 /\ strlen (wifi_pwd noloc_cfg) <> 0 /\
   fst (ESP32.saveConfig ready32 noloc_cfg) = false /\
   ESP32.getLastError (snd (ESP32.saveConfig ready32 noloc_cfg)) = WRITE_FAILED) /\
  (strlen (wifi_ssid stale_cfg) <> 0 /\ strlen (wifi_pwd stale_cfg) <> 0 /\
   fst (ESP32.saveConfig ready32 stale_cfg) = true /\
   fst (fst (ESP32.loadConfig (snd (ESP32.saveConfig ready32 stale_cfg))
               zero_cfg)) = false) /\
  (wf_configuration pwd20_cfg = true /\ nul_terminated pwd20_cfg = false /\
   strlen (wifi_ssid pwd20_cfg) <> 0 /\ strlen (wifi_pwd pwd20_cfg) <> 0 /\
   strcmp (drop 60 (raw_bytes pwd20_cfg))
          (drop 60 (raw_bytes (set_checksum pwd20_cfg
                                 (calculateChecksum pwd20_cfg)))) <> 0).
Proof. vm_compute. repeat split; try reflexivity; discriminate. Qed.

(** C2. What the code does where the claim fails: [saveConfig] sums the
    record as the caller passed it, checksum field included, while
    [loadConfig] sums it with that field zeroed. For a well-formed record
    with NUL-terminated buffers, working WiFi fields and a nonzero checksum
    field, on a lawful device whose commit succeeds, [saveConfig] returns
    true (its read-back comparisons, made on the members in place, find
    equal strings), the two sums differ, and the next [loadConfig] returns
    false with [VALIDATION_FAILED]. *)
Theorem saved_record_fails_own_checksum
  {E : Type} `{EEPROM_Lawful E}
  (st : ESP8266.Storage E) (R out : configuration) :
  ESP8266.initialized st = true ->
  ee_length (ESP8266.eeprom st) = EEPROM_SIZE ->
  fst (ee_commit (staged (ESP8266.eeprom st) R)) = true ->
  wf_configuration R = true ->
  nul_terminated R = true ->
  strlen (wifi_ssid R) <> 0 -> strlen (wifi_pwd R) <> 0 ->
  checksum R <> 0 ->
  let s := ESP8266.saveConfig st R in
  fst s = true /\
  strings_equal_in_place R
    (ee_get (ESP8266.eeprom (snd s)) (EEPROM_START + 1)) /\
  checksum (ee_get (ESP8266.eeprom (snd s)) (EEPROM_START + 1))
  = calculateChecksum R /\
  calculateChecksum R <> calculateChecksum (set_checksum R 0) /\
  ESP8266.loadConfig (snd s) out
  = (false, set_checksum R 0, ESP8266.set_lastError (snd s) VALIDATION_FAILED).
Proof.
  intros Hi Hsz Hc Hwf Hterm Hs Hp Hnz s.
  pose proof (loadConfig_after_save st R out Hi Hwf Hsz Hc Hs Hp) as Hl.
  cbv zeta in Hl. fold s in Hl.
  destruct (Z.eqb_spec (checksum R) 0); [done|].
  pose proof (saveConfig_lawful st R Hi Hwf Hsz Hc) as Hsv. fold s in Hsv.
  destruct (stored_after_commit (ESP8266.eeprom st) R Hwf Hsz) as [_ Hg].
  cbv zeta in Hg.
  split; [by rewrite Hsv|].
  split; [rewrite Hsv; cbn [snd ESP8266.eeprom]; rewrite Hg;
          by apply strings_equal_in_place_terminated|].
  split; [by rewrite Hsv; cbn [snd ESP8266.eeprom]; rewrite Hg|].
  split; [|done].
  apply wf_configuration_spec in Hwf as (_ & _ & _ & _ & Hrange).
  by rewrite calculateChecksum_agree_iff.
Qed.

Lemma saved_record_fails_own_checksum_witness :
  fst (ESP8266.saveConfig ready8266 (set_checksum sensor1_cfg 1)) = true /\
  ESP8266.loadConfig
    (snd (ESP8266.saveConfig ready8266 (set_checksum sensor1_cfg 1))) zero_cfg
  = (false, sensor1_cfg,
     ESP8266.set_lastError
       (snd (ESP8266.saveConfig ready8266 (set_checksum sensor1_cfg 1)))
       VALIDATION_FAILED).
Proof.
  pose proof (saved_record_fails_own_checksum
                ready8266 (set_checksum sensor1_cfg 1) zero_cfg
                eq_refl eq_refl eq_refl eq_refl eq_refl) as Hbug.
  destruct Hbug as (Hs & _ & _ & _ & Hl).
  - vm_compute. discriminate.
  - vm_compute. discriminate.
  - vm_compute. discriminate.
  - split; [exact Hs | exact Hl].
Defined.

(** ** What a return value says about [lastError] *)

Section ReturnAndError.
Context {E : Type} `{EEPROM_Rotate E} {P : Type} `{Preferences P}.
Implicit Types (se : ESP8266.Storage E) (sp : ESP32.Storage P).
Implicit Types (cfg out : configuration) (field value : list Z).

Lemma saveConfig_error_iff se cfg :
  fst (ESP8266.saveConfig se cfg) = false
  <-> ESP8266.getLastError (snd (ESP8266.saveConfig se cfg)) <> NONE.
Proof. unfold ESP8266.saveConfig. break_branches; cbn; split; done. Qed.

Lemma saveConfig32_error_iff sp cfg :
  fst (ESP32.saveConfig sp cfg) = false
  <-> ESP32.getLastError (snd (ESP32.saveConfig sp cfg)) <> NONE.
Proof. unfold ESP32.saveConfig. break_branches; cbn; split; done. Qed.

Lemma loadConfig_error_iff se out :
  fst (fst (ESP8266.loadConfig se out)) = false
  <-> ESP8266.getLastError (snd (ESP8266.loadConfig se out)) <> NONE.
Proof. unfold ESP8266.loadConfig. break_branches; cbn; split; done. Qed.

Lemma loadConfig32_error_iff sp out :
  fst (fst (ESP32.loadConfig sp out)) = false
  <-> ESP32.getLastError (snd (ESP32.loadConfig sp out)) <> NONE.
Proof. unfold ESP32.loadConfig. break_branches; cbn; split; done. Qed.

Lemma updateField32_error_iff sp field value :
  fst (ESP32.updateField sp field value) = false
  <-> ESP32.getLastError (snd (ESP32.updateField sp field value)) <> NONE.
Proof.
  unfold ESP32.updateField.
  destruct (ESP32.initialized sp); cbn [negb]; [|cbn; split; done].
  destruct (putString _ _ _) as [n p1].
  destruct (n =? 0); cbn; split; done.
Qed.

Lemma updateField_true_no_error se field value :
  fst (ESP8266.updateField se field value) = true ->
  ESP8266.getLastError (snd (ESP8266.updateField se field value)) = NONE.
Proof.
  unfold ESP8266.updateField, ESP8266.updateField_from.
  break_branches; cbn; done.
Qed.

Lemma begin_error_iff se :
  ESP8266.initialized se = false ->
  fst (ESP8266.begin se) = false
  <-> ESP8266.getLastError (snd (ESP8266.begin se)) <> NONE.
Proof. intros Hi. unfold ESP8266.begin. rewrite Hi. cbn. split; done. Qed.

Lemma begin32_error_iff sp :
  ESP32.initialized sp = false ->
  fst (ESP32.begin sp) = false
  <-> ESP32.getLastError (snd (ESP32.begin sp)) <> NONE.
Proof.
  intros Hi. unfold ESP32.begin. rewrite Hi.
  destruct (pf_begin _ _ _) as [[] p1]; cbn; split; done.
Qed.

Lemma clear_keeps_lastError se :
  ESP8266.initialized se = true ->
  ESP8266.getLastError (snd (ESP8266.clear se)) = ESP8266.getLastError se /\
  fst (ESP8266.clear se)
  = fst (ee_commit (ee_write (ESP8266.eeprom se) EEPROM_START 0)).
Proof.
  intros Hi. unfold ESP8266.clear. rewrite Hi. cbn [negb].
  destruct (ee_commit _); done.
Qed.

Lemma clear32_keeps_lastError sp :
  ESP32.initialized sp = true ->
  ESP32.getLastError (snd (ESP32.clear sp)) = ESP32.getLastError sp /\
  fst (ESP32.clear sp) = fst (pf_clear (ESP32.preferences sp)).
Proof.
  intros Hi. unfold ESP32.clear. rewrite Hi. cbn [negb].
  destruct (pf_clear _); done.
Qed.

End ReturnAndError.

(** C4 (as amended). The return value and [getLastError()] agree -- false
    exactly when the error is not [NONE] -- for [saveConfig] and [loadConfig]
    on both variants, for [updateField] on the ESP32 variant, and for
    [begin], [clear] and [updateField] called on a facade that is not yet
    initialized. [begin] on an initialized facade returns true and changes
    nothing, [lastError] included. For [updateField] on the ESP8266 variant
    a true return comes with [NONE]. *)
Theorem lastError_agrees_with_result
  {E : Type} `{EEPROM_Rotate E} {P : Type} `{Preferences P}
  (se : ESP8266.Storage E) (sp : ESP32.Storage P)
  (cfg out : configuration) (field value : list Z) :
  ((fst (ESP8266.saveConfig se cfg) = false
    <-> ESP8266.getLastError (snd (ESP8266.saveConfig se cfg)) <> NONE) /\
   (fst (ESP32.saveConfig sp cfg) = false
    <-> ESP32.getLastError (snd (ESP32.saveConfig sp cfg)) <> NONE)) /\
  ((fst (fst (ESP8266.loadConfig se out)) = false
    <-> ESP8266.getLastError (snd (ESP8266.loadConfig se out)) <> NONE) /\
   (fst (fst (ESP32.loadConfig sp out)) = false
    <-> ESP32.getLastError (snd (ESP32.loadConfig sp out)) <> NONE)) /\
  ((fst (ESP32.updateField sp field value) = false
    <-> ESP32.getLastError (snd (ESP32.updateField sp field value)) <> NONE) /\
   (fst (ESP8266.updateField se field value) = true ->
    ESP8266.getLastError (snd (ESP8266.updateField se field value)) = NONE)) /\
  ((ESP8266.initialized se = false ->
    (fst (ESP8266.begin se) = false
     <-> ESP8266.getLastError (snd (ESP8266.begin se)) <> NONE) /\
    (fst (ESP8266.clear se) = false /\
     ESP8266.getLastError (snd (ESP8266.clear se)) = NOT_INITIALIZED) /\
    (fst (ESP8266.updateField se field value) = false /\
     ESP8266.getLastError (snd (ESP8266.updateField se field value))
     = NOT_INITIALIZED)) /\
   (ESP32.initialized sp = false ->
    (fst (ESP32.begin sp) = false
     <-> ESP32.getLastError (snd (ESP32.begin sp)) <> NONE) /\
    (fst (ESP32.clear sp) = false /\
     ESP32.getLastError (snd (ESP32.clear sp)) = NOT_INITIALIZED))) /\
  ((ESP8266.initialized se = true -> ESP8266.begin se = (true, se)) /\
   (ESP32.initialized sp = true -> ESP32.begin sp = (true, sp))).
Proof.
  split; [split; [apply saveConfig_error_iff | apply saveConfig32_error_iff]|].
  split; [split; [apply loadConfig_error_iff | apply loadConfig32_error_iff]|].
  split; [split; [apply updateField32_error_iff
                 | apply updateField_true_no_error]|].
  split; [split|split].
  - intros Hi. split; [by apply begin_error_iff|].
    destruct (fail_fast_ESP8266 se cfg field value Hi) as (_ & _ & -> & ->).
    done.
  - intros Hi. split; [by apply begin32_error_iff|].
    destruct (fail_fast_ESP32 sp cfg field value Hi) as (_ & _ & _ & ->).
    done.
  - intros Hi. unfold ESP8266.begin. by rewrite Hi.
  - intros Hi. unfold ESP32.begin. by rewrite Hi.
Qed.

Lemma lastError_agrees_with_result_witness :
  ESP32.begin ready32 = (true, ready32) /\
  ESP8266.getLastError (snd (ESP8266.clear boot8266)) = NOT_INITIALIZED /\
  ESP8266.getLastError (snd (ESP8266.saveConfig ready8266 sensor1_cfg)) = NONE.
Proof.
  pose proof (lastError_agrees_with_result boot8266 ready32
                sensor1_cfg zero_cfg (lit "name") (lit "x"))
    as (_ & _ & _ & (H0 & _) & (_ & Hb)).
  pose proof (lastError_agrees_with_result ready8266 ready32
                sensor1_cfg zero_cfg (lit "name") (lit "x"))
    as ((Hs & _) & _).
  split; [apply (Hb eq_refl)|]. split; [apply (H0 eq_refl)|].
  destruct (ESP8266.getLastError (snd (ESP8266.saveConfig ready8266 sensor1_cfg)))
    eqn:He; try reflexivity;
    exfalso;
    (assert (Hf : fst (ESP8266.saveConfig ready8266 sensor1_cfg) = false)
       by (apply Hs; discriminate));
    vm_compute in Hf; discriminate Hf.
Defined.

(** C4, counterexample. On an initialized facade whose flash refuses the
    commit, [clear()] returns false and [getLastError()] still answers
    [NONE]. On the same kind of device holding a valid record, [updateField]
    returns false -- its [saveConfig] failed with [COMMIT_FAILED] -- and
    [getLastError()] answers [NONE] as well. And [begin()] on an initialized
    facade returns true while an earlier error stays reported. *)
Lemma failure_without_error :
  (fst (ESP8266.clear failing8266) = false /\
   ESP8266.getLastError (snd (ESP8266.clear failing8266)) = NONE) /\
  (fst (ESP8266.updateField saved_failing8266 (lit "name") (lit "x")) = false /\
   ESP8266.getLastError
     (snd (ESP8266.updateField saved_failing8266 (lit "name") (lit "x"))) = NONE) /\
  (fst (ESP8266.begin (ESP8266.set_lastError ready8266 WRITE_FAILED)) = true /\
   ESP8266.getLastError
     (snd (ESP8266.begin (ESP8266.set_lastError ready8266 WRITE_FAILED)))
   = WRITE_FAILED).
Proof. vm_compute. repeat split; reflexivity. Qed.

(** C7 (as amended). On the ESP32 variant a true return of [loadConfig]
    comes with a non-empty [name] in the returned record. On the ESP8266
    variant a true return guarantees the set marker and, as on ESP32,
    non-empty [wifi_ssid] and [wifi_pwd]; the name is not examined. *)
Theorem loadConfig_success_guarantees
  {E : Type} `{EEPROM_Rotate E} {P : Type} `{Preferences P}
  (se : ESP8266.Storage E) (sp : ESP32.Storage P) (out : configuration) :
  (fst (fst (ESP32.loadConfig sp out)) = true ->
   strlen (name (snd (fst (ESP32.loadConfig sp out)))) <> 0 /\
   strlen (wifi_ssid (snd (fst (ESP32.loadConfig sp out)))) <> 0 /\
   strlen (wifi_pwd (snd (fst (ESP32.loadConfig sp out)))) <> 0) /\
  (fst (fst (ESP8266.loadConfig se out)) = true ->
   ee_read (ESP8266.eeprom se) EEPROM_START = 1 /\
   strlen (wifi_ssid (snd (fst (ESP8266.loadConfig se out)))) <> 0 /\
   strlen (wifi_pwd (snd (fst (ESP8266.loadConfig se out)))) <> 0).
Proof.
  split.
  - intros Ht.
    destruct (loadConfig32_true sp out Ht) as (_ & Hn & -> & Hs & Hp).
    split; [|done]. cbn [name copied_out].
    by rewrite strlen_strlcpy_zero.
  - destruct (ESP8266.initialized se) eqn:Hi.
    + rewrite (loadConfig_initialized se out Hi). cbv zeta.
      destruct (Z.eqb_spec (ee_read (ESP8266.eeprom se) EEPROM_START) 1);
        cbn [negb]; [|done].
      destruct (negb _); [done|].
      destruct (Z.eqb_spec (strlen (wifi_ssid
                  (ee_get (ESP8266.eeprom se) (EEPROM_START + 1)))) 0);
        [done|].
      destruct (Z.eqb_spec (strlen (wifi_pwd
                  (ee_get (ESP8266.eeprom se) (EEPROM_START + 1)))) 0);
        [done|].
      done.
    + rewrite (loadConfig_uninitialized se out Hi). done.
Qed.

Lemma loadConfig_success_guarantees_witness :
  strlen (name (snd (fst (ESP32.loadConfig saved32 zero_cfg)))) <> 0 /\
  ee_read (ESP8266.eeprom saved8266) EEPROM_START = 1.
Proof.
  pose proof (loadConfig_success_guarantees saved8266 saved32 zero_cfg)
    as [H32 H8].
  split.
  - apply H32. vm_compute. reflexivity.
  - apply H8. vm_compute. reflexivity.
Defined.

(** C7, counterexample. On the reference EEPROM, [begin()], then
    [saveConfig] of a record with working WiFi fields and an empty name,
    then [loadConfig]: both return true and the name that comes back is the
    empty string. *)
Lemma loaded_name_may_be_empty :
  fst (ESP8266.saveConfig ready8266 noname_cfg) = true /\
  fst (fst (ESP8266.loadConfig
              (snd (ESP8266.saveConfig ready8266 noname_cfg)) zero_cfg)) = true /\
  strlen (name (snd (fst (ESP8266.loadConfig
              (snd (ESP8266.saveConfig ready8266 noname_cfg)) zero_cfg)))) = 0.
Proof. vm_compute. repeat split; reflexivity. Qed.

(** ** updateField with a name it does not know *)

Lemma strcmp_lit_false (field : list Z) (s : string) :
  c_str (lit s) = lit s -> c_str field <> lit s ->
  (strcmp field (lit s) =? 0) = false.
Proof.
  intros Hs Hne. rewrite strcmp_eqb, Hs. by apply bool_decide_eq_false_2.
Qed.

Section UnknownField.
Context {E : Type} `{EEPROM_Rotate E}.

Lemma updateField_unknown (local : configuration)
  (se : ESP8266.Storage E) (field value : list Z) :
  ~ known_field field ->
  ESP8266.updateField_from local se field value =
  if negb (ESP8266.initialized se)
  then (false, ESP8266.set_lastError se NOT_INITIALIZED)
  else if fst (fst (ESP8266.loadConfig se local))
  then (false, ESP8266.set_lastError se INVALID_FIELD)
  else (false, ESP8266.set_lastError se VALIDATION_FAILED).
Proof.
  intros Hk. unfold known_field in Hk.
  unfold ESP8266.updateField_from.
  destruct (ESP8266.initialized se) eqn:Hi; cbn [negb]; [|done].
  pose proof (loadConfig_lastError se local Hi) as He.
  pose proof (loadConfig_reads_only se local) as [Hdev Hini].
  destruct (ESP8266.loadConfig se local) as [[loaded cfg] st1].
  cbn [fst snd] in *.
  assert (Hst1 : forall e, ESP8266.set_lastError st1 e = ESP8266.set_lastError se e).
  { intros e. unfold ESP8266.set_lastError. by rewrite Hdev, Hini. }
  destruct loaded; cbn [negb].
  - rewrite !strcmp_lit_false by (try reflexivity; tauto).
    by rewrite Hst1.
  - f_equal. rewrite <- (Hst1 VALIDATION_FAILED).
    destruct st1 as [d i e]. cbn in He. by subst e.
Qed.

End UnknownField.

(** On the ESP32 variant the field name is not examined: the call is the
    [putString] of that key. *)
Lemma updateField32_passes_through
  {P : Type} `{Preferences P}
  (sp : ESP32.Storage P) (field value : list Z) :
  ESP32.initialized sp = true ->
  let w := putString (ESP32.preferences sp) field value in
  ESP32.updateField sp field value
  = if fst w =? 0
    then (false, ESP32.mkStorage (snd w) true WRITE_FAILED)
    else (true, ESP32.mkStorage (snd w) true NONE).
Proof.
  intros Hi w. subst w. unfold ESP32.updateField. rewrite Hi. cbn [negb].
  destruct (putString _ _ _) as [n p1]. cbn [fst snd].
  unfold ESP32.set_lastError, ESP32.set_preferences. cbn. rewrite Hi.
  destruct (n =? 0); done.
Qed.

(** C3 (as amended). On the ESP8266 variant, [updateField] with a field name
    outside [name], [location], [wifi_ssid], [wifi_pwd] returns false for
    every value and leaves the device, and so the persisted record, as it
    was; [lastError] is [INVALID_FIELD] when the facade is initialized and
    [loadConfig] accepts the stored record, [NOT_INITIALIZED] before
    [begin()], and [VALIDATION_FAILED] when the stored record is not
    accepted. *)
Theorem updateField_unknown_name
  {E : Type} `{EEPROM_Rotate E}
  (se : ESP8266.Storage E) (out : configuration) (field value : list Z) :
  ~ known_field field ->
  fst (ESP8266.updateField se field value) = false /\
  ESP8266.eeprom (snd (ESP8266.updateField se field value))
  = ESP8266.eeprom se /\
  ESP8266.initialized (snd (ESP8266.updateField se field value))
  = ESP8266.initialized se /\
  ESP8266.getLastError (snd (ESP8266.updateField se field value))
  = if negb (ESP8266.initialized se) then NOT_INITIALIZED
    else if fst (fst (ESP8266.loadConfig se out)) then INVALID_FIELD
    else VALIDATION_FAILED.
Proof.
  intros Hk.
  unfold ESP8266.updateField. rewrite updateField_unknown by done.
  destruct (loadConfig_out_irrelevant se out
              (of_raw_bytes (replicate sizeof_configuration 0))) as [-> _].
  destruct (ESP8266.initialized se) eqn:Hi; cbn [negb].
  - destruct (fst (fst _)); cbn; by rewrite Hi.
  - cbn. by rewrite Hi.
Qed.

Lemma updateField_unknown_name_witness :
  fst (ESP8266.updateField saved8266 (lit "bogus_field") (lit "x")) = false /\
  ESP8266.getLastError
    (snd (ESP8266.updateField saved8266 (lit "bogus_field") (lit "x")))
  = INVALID_FIELD.
Proof.
  assert (Hk : ~ known_field (lit "bogus_field")).
  { unfold known_field. vm_compute. intros [Hf|[Hf|[Hf|Hf]]]; discriminate Hf. }
  destruct (updateField_unknown_name saved8266 zero_cfg
              (lit "bogus_field") (lit "x") Hk) as (Hr & _ & _ & He).
  split; [exact Hr|]. rewrite He. vm_compute. reflexivity.
Defined.

(** C3, counterexample. ESP32, open and empty namespace:
    [updateField("bogus_field", "x")] returns true with [NONE], and the
    namespace now holds the key [bogus_field]. ESP8266, initialized, nothing
    stored: the same call returns false, but with [VALIDATION_FAILED]. *)
Lemma bogus_field_accepted :
  (fst (ESP32.updateField ready32 (lit "bogus_field") (lit "x")) = true /\
   ESP32.getLastError
     (snd (ESP32.updateField ready32 (lit "bogus_field") (lit "x"))) = NONE /\
   entries (ESP32.preferences
              (snd (ESP32.updateField ready32 (lit "bogus_field") (lit "x"))))
     !! lit "bogus_field" = Some (NvsStr (lit "x")) /\
   entries (ESP32.preferences ready32) !! lit "bogus_field" = None) /\
  (fst (ESP8266.updateField ready8266 (lit "bogus_field") (lit "x")) = false /\
   ESP8266.getLastError
     (snd (ESP8266.updateField ready8266 (lit "bogus_field") (lit "x")))
   = VALIDATION_FAILED).
Proof. vm_compute. repeat split; reflexivity. Qed.

(** * Further properties of the code *)

(** ** calculateChecksum *)

(** X1. Two records whose object representations differ in exactly one byte
    have different checksums: a single corrupted byte is always noticed. *)
Theorem checksum_detects_single_byte_change
  (c1 c2 : configuration) (pre post : list Z) (b b' : Z) :
  raw_bytes c1 = pre ++ b :: post ->
  raw_bytes c2 = pre ++ b' :: post ->
  0 <= b < 256 -> 0 <= b' < 256 -> b <> b' ->
  calculateChecksum c1 <> calculateChecksum c2.
Proof.
  intros H1 H2 Hb Hb' Hne.
  rewrite !calculateChecksum_sum, H1, H2, !sumZ_app. cbn [sumZ foldr].
  fold (sumZ post). intros Heq.
  assert (Hd : (b - b') mod 65536 = 0).
  { replace (b - b') with ((sumZ pre + (b + sumZ post))
                           - (sumZ pre + (b' + sumZ post))) by lia.
    rewrite Zminus_mod, Heq, Z.sub_diag. done. }
  destruct (Z.lt_ge_cases b b') as [Hlt|Hge].
  - replace (b - b') with (- (b' - b)) in Hd by lia.
    apply Z.mod_opp_l_z in Hd; [|lia].
    rewrite Z.opp_involutive, Z.mod_small in Hd by lia. lia.
  - rewrite Z.mod_small in Hd by lia. lia.
Qed.

Lemma checksum_detects_single_byte_change_witness :
  calculateChecksum sensor1_cfg <> calculateChecksum tensor1_cfg.
Proof.
  apply (checksum_detects_single_byte_change sensor1_cfg tensor1_cfg
           (location sensor1_cfg) (skipn 21 (raw_bytes sensor1_cfg)) 115 116);
    [reflexivity | reflexivity | lia | lia | lia].
Defined.

(** X2. The checksum does not see the order of the bytes: records whose
    object representations are permutations of each other have the same
    checksum, so exchanged or shuffled bytes pass the checksum test. *)
Theorem checksum_blind_to_byte_order (c1 c2 : configuration) :
  raw_bytes c1 ≡ₚ raw_bytes c2 ->
  calculateChecksum c1 = calculateChecksum c2.
Proof.
  intros Hp. rewrite !calculateChecksum_sum. f_equal.
  induction Hp as [|x l l' _ IH|x y l|l l' l'' _ IH1 _ IH2]; cbn [sumZ foldr].
  - done.
  - fold (sumZ l) (sumZ l'). by rewrite IH.
  - fold (sumZ l). lia.
  - by rewrite IH1.
Qed.

Lemma checksum_blind_to_byte_order_witness :
  calculateChecksum sensor1_cfg = calculateChecksum swapped_cfg.
Proof.
  apply checksum_blind_to_byte_order.
  unfold raw_bytes, swapped_cfg. cbn [location name wifi_ssid wifi_pwd checksum
                                      set_location set_name].
  apply Permutation_app_swap_app.
Defined.

(** ** Storage: what the operations leave alone *)

(** X3. [loadConfig] never writes: on both variants the backend object is
    the one it was called with. And no operation other than [begin] changes
    [initialized]: once set it stays set through [saveConfig], [loadConfig],
    [updateField] and [clear]. *)
Theorem operations_frame
  {E : Type} `{EEPROM_Rotate E} {P : Type} `{Preferences P}
  (se : ESP8266.Storage E) (sp : ESP32.Storage P)
  (cfg out : configuration) (field value : list Z) :
  (ESP8266.eeprom (snd (ESP8266.loadConfig se out)) = ESP8266.eeprom se /\
   ESP32.preferences (snd (ESP32.loadConfig sp out)) = ESP32.preferences sp) /\
  (ESP8266.initialized (snd (ESP8266.saveConfig se cfg)) = ESP8266.initialized se /\
   ESP8266.initialized (snd (ESP8266.loadConfig se out)) = ESP8266.initialized se /\
   ESP8266.initialized (snd (ESP8266.updateField se field value))
   = ESP8266.initialized se /\
   ESP8266.initialized (snd (ESP8266.clear se)) = ESP8266.initialized se) /\
  (ESP32.initialized (snd (ESP32.saveConfig sp cfg)) = ESP32.initialized sp /\
   ESP32.initialized (snd (ESP32.loadConfig sp out)) = ESP32.initialized sp /\
   ESP32.initialized (snd (ESP32.updateField sp field value))
   = ESP32.initialized sp /\
   ESP32.initialized (snd (ESP32.clear sp)) = ESP32.initialized sp).
Proof.
  assert (Hsave : forall s c, ESP8266.initialized (snd (ESP8266.saveConfig s c))
                              = ESP8266.initialized s).
  { intros s c. unfold ESP8266.saveConfig. break_branches; done. }
  assert (Hload : forall s o, ESP8266.initialized (snd (ESP8266.loadConfig s o))
                              = ESP8266.initialized s).
  { intros s o. apply (loadConfig_reads_only s o). }
  split; [split|split].
  - apply (loadConfig_reads_only se out).
  - unfold ESP32.loadConfig. break_branches; done.
  - split; [apply Hsave|]. split; [apply Hload|]. split.
    + unfold ESP8266.updateField, ESP8266.updateField_from.
      destruct (ESP8266.initialized se) eqn:Hi; cbn [negb]; [|cbn; done].
      pose proof (Hload se (of_raw_bytes (replicate sizeof_configuration 0))) as Hl.
      destruct (ESP8266.loadConfig se _) as [[loaded cur] st1]. cbn [snd] in Hl.
      rewrite Hi in Hl.
      destruct loaded; cbn [negb]; [|done].
      repeat match goal with
      | |- context [if ?b then _ else _] => destruct b
      end; cbn [snd ESP8266.set_lastError ESP8266.initialized]; try done;
      match goal with
      | |- context [ESP8266.saveConfig ?s ?c] =>
          pose proof (Hsave s c) as Hs; destruct (ESP8266.saveConfig s c);
          cbn [snd] in *; cbn; congruence
      end.
    + unfold ESP8266.clear. break_branches; done.
  - split; [unfold ESP32.saveConfig; break_branches; done|].
    split; [unfold ESP32.loadConfig; break_branches; done|].
    split; [|unfold ESP32.clear; break_branches; done].
    unfold ESP32.updateField.
    destruct (ESP32.initialized sp) eqn:Hi; cbn [negb]; [|cbn; done].
    destruct (putString _ _ _) as [n p1]. destruct (n =? 0); cbn; done.
Qed.

(** ** Storage, ESP8266: updateField *)

(** X4. [updateField] is a read-modify-write: when [loadConfig] does not
    accept what is stored, it returns false with [VALIDATION_FAILED] for every
    field and value and leaves the device as it was -- it never creates a
    record from a single field. *)
Theorem updateField_needs_stored_record
  {E : Type} `{EEPROM_Rotate E}
  (se : ESP8266.Storage E) (out : configuration) (field value : list Z) :
  ESP8266.initialized se = true ->
  fst (fst (ESP8266.loadConfig se out)) = false ->
  ESP8266.updateField se field value
  = (false, ESP8266.mkStorage (ESP8266.eeprom se) true VALIDATION_FAILED).
Proof.
  intros Hi Hl.
  unfold ESP8266.updateField, ESP8266.updateField_from. rewrite Hi. cbn [negb].
  set (local := of_raw_bytes (replicate sizeof_configuration 0)).
  destruct (loadConfig_out_irrelevant se out local) as [Hb _].
  rewrite Hl in Hb. clear Hl.
  pose proof (loadConfig_lastError se local Hi) as He.
  pose proof (loadConfig_reads_only se local) as [Hd Hini].
  destruct (ESP8266.loadConfig se local) as [[loaded cur] st1].
  cbn [fst snd] in *. subst loaded. cbn [negb].
  destruct st1 as [d i e]. cbn in Hd, Hini, He. subst d i e. by rewrite Hi.
Qed.

Lemma updateField_needs_stored_record_witness :
  ESP8266.updateField ready8266 (lit "name") (lit "newname")
  = (false, ESP8266.mkStorage (ESP8266.eeprom ready8266) true VALIDATION_FAILED).
Proof.
  apply (updateField_needs_stored_record ready8266 zero_cfg
           (lit "name") (lit "newname")).
  - reflexivity.
  - vm_compute. reflexivity.
Defined.

Lemma c_str_Forall (P : Z -> Prop) (p : list Z) :
  Forall P p -> Forall P (c_str p).
Proof.
  induction 1 as [|b p Hb _ IH]; simpl; [constructor|].
  destruct (b =? 0); [constructor | by constructor].
Qed.

Lemma bytes_ok_forallb (bs : list Z) :
  forallb is_byte bs = true -> bytes_ok bs.
Proof.
  intros Hb. apply Forall_forall. intros b Hin%list_elem_of_In.
  rewrite forallb_forall in Hb. specialize (Hb b Hin).
  unfold is_byte in Hb. lia.
Qed.

Lemma is_buffer_intro (buf : list Z) :
  length buf = FIELD_SIZE -> bytes_ok buf -> is_buffer buf = true.
Proof.
  intros Hl Hb. unfold is_buffer. rewrite Hl, Nat.eqb_refl. cbn [andb].
  apply forallb_forall. intros b Hin%list_elem_of_In.
  unfold bytes_ok in Hb. rewrite Forall_forall in Hb.
  specialize (Hb b Hin). unfold is_byte. lia.
Qed.

(** [strlcpy] into a 20-byte buffer gives a 20-byte buffer. *)
Lemma is_buffer_strlcpy (buf value : list Z) :
  is_buffer buf = true -> bytes_ok value ->
  is_buffer (strlcpy buf value FIELD_SIZE) = true.
Proof.
  intros [Hl Hb]%is_buffer_spec Hv. apply is_buffer_intro.
  - rewrite length_strlcpy; [done|]. rewrite Hl. done.
  - unfold strlcpy, FIELD_SIZE, bytes_ok. rewrite Forall_app. split.
    + apply Forall_take. by apply c_str_Forall.
    + constructor; [lia|]. by apply Forall_drop.
Qed.

Section ESP8266_Update.
Context {E : Type} `{EEPROM_Rotate E}.
Implicit Types (se : ESP8266.Storage E) (cfg out : configuration).

(** A successful [loadConfig] hands out the stored record with a zeroed
    checksum field and reports [NONE]. *)
Lemma loadConfig_success_form se out :
  fst (fst (ESP8266.loadConfig se out)) = true ->
  ESP8266.loadConfig se out
  = (true, set_checksum (ee_get (ESP8266.eeprom se) (EEPROM_START + 1)) 0,
     ESP8266.set_lastError se NONE).
Proof.
  destruct (ESP8266.initialized se) eqn:Hi.
  - rewrite (loadConfig_initialized se out Hi). cbv zeta.
    destruct (negb (ee_read _ _ =? 1)); [done|].
    destruct (negb (checksum _ =? _)); [done|].
    destruct (_ || _); done.
  - by rewrite (loadConfig_uninitialized se out Hi).
Qed.

Lemma updateField_needs_record se (field value : list Z) :
  ESP8266.initialized se = true ->
  fst (fst (ESP8266.loadConfig se zero_cfg)) = false ->
  ESP8266.updateField se field value
  = (false, ESP8266.set_lastError se VALIDATION_FAILED).
Proof.
  intros Hi Hl.
  unfold ESP8266.updateField, ESP8266.updateField_from. rewrite Hi. cbn [negb].
  fold zero_cfg.
  pose proof (loadConfig_lastError se zero_cfg Hi) as He.
  pose proof (loadConfig_reads_only se zero_cfg) as [Hd Hini].
  destruct (ESP8266.loadConfig se zero_cfg) as [[loaded cur] st1].
  cbn [fst snd] in *. subst loaded. cbn [negb].
  destruct st1 as [d i e]. cbn in Hd, Hini, He. subst d i e. done.
Qed.

Lemma updateField_after_load se (field value : list Z) :
  ESP8266.initialized se = true ->
  fst (fst (ESP8266.loadConfig se zero_cfg)) = true ->
  ESP8266.updateField se field value =
  match edited_record field value
          (set_checksum (ee_get (ESP8266.eeprom se) (EEPROM_START + 1)) 0) with
  | None => (false, ESP8266.set_lastError se INVALID_FIELD)
  | Some cfg' =>
      (fst (ESP8266.saveConfig (ESP8266.set_lastError se NONE) cfg'),
       ESP8266.set_lastError
         (snd (ESP8266.saveConfig (ESP8266.set_lastError se NONE) cfg')) NONE)
  end.
Proof.
  intros Hi Hl.
  unfold ESP8266.updateField, ESP8266.updateField_from. rewrite Hi. cbn [negb].
  fold zero_cfg. rewrite (loadConfig_success_form se zero_cfg Hl). cbn [negb].
  unfold edited_record.
  repeat match goal with
  | |- context [if ?b then _ else _] => destruct b
  end; try done;
  match goal with
  | |- context [ESP8266.saveConfig ?s ?c] => destruct (ESP8266.saveConfig s c)
  end; done.
Qed.

End ESP8266_Update.

Lemma edited_record_wf (field value : list Z) (cfg cfg' : configuration) :
  wf_configuration cfg = true -> bytes_ok value ->
  edited_record field value cfg = Some cfg' ->
  wf_configuration cfg' = true /\ checksum cfg' = checksum cfg.
Proof.
  intros Hwf Hv He.
  apply wf_configuration_spec in Hwf as ([L1 B1] & [L2 B2] & [L3 B3] & [L4 B4] & Hc).
  assert (Hbuf : forall buf, length buf = FIELD_SIZE -> bytes_ok buf ->
                             is_buffer buf = true) by apply is_buffer_intro.
  assert (Hcpy : forall buf, length buf = FIELD_SIZE -> bytes_ok buf ->
                   is_buffer (strlcpy buf value FIELD_SIZE) = true).
  { intros buf Hl Hb. apply is_buffer_strlcpy; [by apply Hbuf | done]. }
  assert (Hr : (0 <=? checksum cfg) && (checksum cfg <? 65536) = true)
    by (apply andb_true_iff; lia).
  unfold edited_record in He.
  repeat match type of He with
  | context [if ?b then _ else _] => destruct b
  end; try discriminate He;
  match type of He with
  | Some ?c = Some _ => assert (Hc' : cfg' = c) by congruence
  end; subst cfg'; clear He;
  (split; [|reflexivity]); unfold wf_configuration;
  cbv [location name wifi_ssid wifi_pwd checksum
       set_name set_location set_wifi_ssid set_wifi_pwd];
  destruct cfg as [l n s p c];
  cbv [location name wifi_ssid wifi_pwd checksum] in *;
  rewrite ?Hcpy by done; rewrite ?Hbuf by done; exact Hr.
Qed.

Lemma edited_record_terminated (field value : list Z) (cfg cfg' : configuration) :
  nul_terminated cfg = true ->
  edited_record field value cfg = Some cfg' ->
  nul_terminated cfg' = true.
Proof.
  intros Ht He. unfold nul_terminated in Ht. rewrite !andb_true_iff in Ht.
  destruct Ht as [[[T1 T2] T3] T4].
  pose proof (fun dst => has_nul_strlcpy dst value 19) as Hcpy.
  fold FIELD_SIZE in Hcpy.
  unfold edited_record in He.
  repeat match type of He with
  | context [if ?b then _ else _] => destruct b
  end; try discriminate He;
  match type of He with
  | Some ?c = Some _ => assert (Hc' : cfg' = c) by congruence
  end; subst cfg'; clear He; unfold nul_terminated;
  cbv [location name wifi_ssid wifi_pwd checksum
       set_name set_location set_wifi_ssid set_wifi_pwd];
  destruct cfg as [l n s p c];
  cbv [location name wifi_ssid wifi_pwd checksum] in *;
  rewrite ?Hcpy, ?T1, ?T2, ?T3, ?T4; reflexivity.
Qed.

(** X5. [updateField] followed by [loadConfig], on a lawful device holding
    a well-formed record with NUL-terminated buffers that [loadConfig]
    accepts: when the commit succeeds (and, for a WiFi field, the new value
    is not empty), [updateField] returns true with [NONE] (the read-back
    comparisons of its [saveConfig], made on the members in place, find
    equal strings) and the next [loadConfig] returns the edited record. For
    the field [name] that is the stored record with the name replaced by the
    first 19 characters of the value, the other three buffers untouched. *)
Theorem updateField_then_load
  {E : Type} `{EEPROM_Lawful E}
  (se : ESP8266.Storage E) (out cfg' : configuration) (field value : list Z) :
  let stored := ee_get (ESP8266.eeprom se) (EEPROM_START + 1) in
  ESP8266.initialized se = true ->
  ee_length (ESP8266.eeprom se) = EEPROM_SIZE ->
  wf_configuration stored = true ->
  nul_terminated stored = true ->
  fst (fst (ESP8266.loadConfig se out)) = true ->
  bytes_ok value ->
  edited_record field value (set_checksum stored 0) = Some cfg' ->
  strlen (wifi_ssid cfg') <> 0 -> strlen (wifi_pwd cfg') <> 0 ->
  fst (ee_commit (staged (ESP8266.eeprom se) cfg')) = true ->
  let r := ESP8266.updateField se field value in
  fst r = true /\
  ESP8266.getLastError (snd r) = NONE /\
  strings_equal_in_place cfg'
    (ee_get (ESP8266.eeprom (snd r)) (EEPROM_START + 1)) /\
  ESP8266.loadConfig (snd r) out
  = (true, cfg', ESP8266.set_lastError (snd r) NONE) /\
  (strcmp field (lit "name") = 0 ->
   c_str (name cfg') = take 19 (c_str value) /\
   length (name cfg') = FIELD_SIZE /\
   location cfg' = location stored /\
   wifi_ssid cfg' = wifi_ssid stored /\
   wifi_pwd cfg' = wifi_pwd stored).
Proof.
  intros stored Hi Hsz Hwf Hterm Hl Hv He Hs Hp Hc r.
  assert (Hl0 : fst (fst (ESP8266.loadConfig se zero_cfg)) = true).
  { destruct (loadConfig_out_irrelevant se out zero_cfg) as [<- _]. done. }
  assert (Hwf0 : wf_configuration (set_checksum stored 0) = true)
    by (apply wf_set_checksum; [done | lia]).
  destruct (edited_record_wf field value _ cfg' Hwf0 Hv He) as [Hwf' Hck].
  cbn [checksum set_checksum] in Hck.
  set (st1 := ESP8266.set_lastError se NONE).
  assert (Hsave : ESP8266.saveConfig st1 cfg'
                  = (true, ESP8266.mkStorage
                             (snd (ee_commit (staged (ESP8266.eeprom se) cfg')))
                             true NONE))
    by (by apply (saveConfig_lawful st1 cfg')).
  pose proof (loadConfig_after_save st1 cfg' out Hi Hwf' Hsz Hc Hs Hp) as Hload.
  cbv zeta in Hload. rewrite Hck in Hload. cbn [Z.eqb] in Hload.
  rewrite <- Hck, set_checksum_same in Hload.
  assert (Hr : r = (true, snd (ESP8266.saveConfig st1 cfg'))).
  { subst r. rewrite (updateField_after_load se field value Hi Hl0).
    fold stored. rewrite He. fold st1. by rewrite Hsave. }
  rewrite Hr. cbn [fst snd].
  split; [done|]. split; [by rewrite Hsave|].
  split.
  { rewrite Hsave. cbn [snd ESP8266.eeprom].
    destruct (stored_after_commit (ESP8266.eeprom se) cfg' Hwf' Hsz) as [_ Hg].
    cbv zeta in Hg. rewrite Hg.
    apply strings_equal_in_place_terminated; [done|].
    by apply (edited_record_terminated field value (set_checksum stored 0) cfg'). }
  split; [exact Hload|].
  intros Hname. unfold edited_record in He. rewrite Hname in He.
  cbn [Z.eqb] in He.
  assert (cfg' = set_name (set_checksum stored 0)
                   (strlcpy (name (set_checksum stored 0)) value FIELD_SIZE))
    as -> by congruence.
  cbn [name location wifi_ssid wifi_pwd set_name set_checksum].
  split; [apply c_str_strlcpy|]. split; [|done].
  apply wf_configuration_spec in Hwf as (_ & [Ln _] & _).
  rewrite length_strlcpy; [done|]. by rewrite Ln.
Qed.

Lemma updateField_then_load_witness :
  fst (ESP8266.updateField saved8266 (lit "name")
         (lit "a-name-of-more-than-19-chars")) = true /\
  c_str (name (snd (fst (ESP8266.loadConfig
           (snd (ESP8266.updateField saved8266 (lit "name")
                   (lit "a-name-of-more-than-19-chars"))) zero_cfg))))
  = lit "a-name-of-more-than".
Proof.
  assert (Hv : bytes_ok (lit "a-name-of-more-than-19-chars"))
    by (apply bytes_ok_forallb; reflexivity).
  assert (Hs : strlen (wifi_ssid sensor1_cfg) <> 0) by (vm_compute; discriminate).
  assert (Hp : strlen (wifi_pwd sensor1_cfg) <> 0) by (vm_compute; discriminate).
  pose proof (updateField_then_load saved8266 zero_cfg
                (set_name sensor1_cfg
                   (strlcpy (name sensor1_cfg)
                      (lit "a-name-of-more-than-19-chars") FIELD_SIZE))
                (lit "name") (lit "a-name-of-more-than-19-chars")
                eq_refl eq_refl eq_refl eq_refl eq_refl Hv eq_refl Hs Hp eq_refl)
    as (Hr & _ & _ & Hl & Hn).
  split; [exact Hr|]. rewrite Hl. cbn [fst snd].
  rewrite (proj1 (Hn eq_refl)). reflexivity.
Defined.

(** X6. When the [saveConfig] inside [updateField] fails, [updateField]
    returns false but reports [NONE]: the assignment [lastError = NONE]
    behind the call replaces the error [saveConfig] had set. *)
Theorem updateField_drops_save_error
  {E : Type} `{EEPROM_Rotate E}
  (se : ESP8266.Storage E) (out cfg' : configuration) (field value : list Z) :
  ESP8266.initialized se = true ->
  fst (fst (ESP8266.loadConfig se out)) = true ->
  edited_record field value
    (set_checksum (ee_get (ESP8266.eeprom se) (EEPROM_START + 1)) 0)
  = Some cfg' ->
  fst (ESP8266.saveConfig (ESP8266.set_lastError se NONE) cfg') = false ->
  fst (ESP8266.updateField se field value) = false /\
  ESP8266.getLastError (snd (ESP8266.updateField se field value)) = NONE /\
  ESP8266.getLastError
    (snd (ESP8266.saveConfig (ESP8266.set_lastError se NONE) cfg')) <> NONE.
Proof.
  intros Hi Hl He Hs.
  assert (Hl0 : fst (fst (ESP8266.loadConfig se zero_cfg)) = true).
  { destruct (loadConfig_out_irrelevant se out zero_cfg) as [<- _]. done. }
  rewrite (updateField_after_load se field value Hi Hl0), He. cbn [fst snd].
  split; [done|]. split; [done|]. by apply saveConfig_error_iff.
Qed.

Lemma updateField_drops_save_error_witness :
  fst (ESP8266.updateField saved_failing8266 (lit "name") (lit "x")) = false /\
  ESP8266.getLastError
    (snd (ESP8266.updateField saved_failing8266 (lit "name") (lit "x"))) = NONE.
Proof.
  pose proof (updateField_drops_save_error saved_failing8266 zero_cfg
                (set_name sensor1_cfg
                   (strlcpy (name sensor1_cfg) (lit "x") FIELD_SIZE))
                (lit "name") (lit "x") eq_refl eq_refl eq_refl eq_refl)
    as (Hr & He & _).
  split; [exact Hr | exact He].
Defined.

(** ** Storage, ESP8266 on a lawful device: what is stored and what loads *)

Section ESP8266_Stored.
Context {E : Type} `{EEPROM_Lawful E}.
Implicit Types (se : ESP8266.Storage E) (cfg out : configuration).

(** [loadConfig] on a device that holds the marker and the record [cfg]
    with its embedded checksum, for a record passed with checksum field 0. *)
Lemma loadConfig_of_stored se cfg out :
  ESP8266.initialized se = true ->
  wf_configuration cfg = true -> checksum cfg = 0 ->
  ee_read (ESP8266.eeprom se) EEPROM_START = 1 ->
  ee_get (ESP8266.eeprom se) (EEPROM_START + 1)
  = set_checksum cfg (calculateChecksum cfg) ->
  ESP8266.loadConfig se out =
  if (strlen (wifi_ssid cfg) =? 0) || (strlen (wifi_pwd cfg) =? 0)
  then (false, cfg, ESP8266.set_lastError se VALIDATION_FAILED)
  else (true, cfg, ESP8266.set_lastError se NONE).
Proof.
  intros Hi Hwf Hz Hm Hg.
  rewrite (loadConfig_initialized se out Hi). cbv zeta.
  rewrite Hm, Hg. cbn [Z.eqb Pos.eqb negb checksum wifi_ssid wifi_pwd set_checksum].
  rewrite set_checksum_twice.
  assert (Hsame : set_checksum cfg 0 = cfg)
    by (rewrite <- Hz; apply set_checksum_same).
  rewrite Hsame, Z.eqb_refl. cbn [negb].
  reflexivity.
Qed.

End ESP8266_Stored.

Section ESP8266_AfterSave.
Context {E : Type} `{EEPROM_Lawful E}.
Implicit Types (se : ESP8266.Storage E) (cfg out : configuration).

(** The state [saveConfig] leaves: the committed device, and [NONE] or
    [COMMIT_FAILED] by the outcome of the commit. *)
Lemma saveConfig_lawful_any se cfg :
  ESP8266.initialized se = true ->
  wf_configuration cfg = true ->
  ee_length (ESP8266.eeprom se) = EEPROM_SIZE ->
  ESP8266.saveConfig se cfg =
  (fst (ee_commit (staged (ESP8266.eeprom se) cfg)),
   ESP8266.mkStorage (snd (ee_commit (staged (ESP8266.eeprom se) cfg))) true
     (if fst (ee_commit (staged (ESP8266.eeprom se) cfg))
      then NONE else COMMIT_FAILED)).
Proof.
  intros Hi Hwf Hsz.
  destruct (fst (ee_commit (staged (ESP8266.eeprom se) cfg))) eqn:Hc.
  - by apply saveConfig_lawful.
  - rewrite (saveConfig_initialized se cfg Hi). cbv zeta. rewrite Hc.
    cbn [negb]. unfold ESP8266.set_lastError, ESP8266.set_eeprom. cbn.
    by rewrite Hi.
Qed.

Lemma loadConfig_after_any_save se cfg out :
  ESP8266.initialized se = true ->
  wf_configuration cfg = true -> checksum cfg = 0 ->
  ee_length (ESP8266.eeprom se) = EEPROM_SIZE ->
  let st' := snd (ESP8266.saveConfig se cfg) in
  ESP8266.loadConfig st' out =
  if (strlen (wifi_ssid cfg) =? 0) || (strlen (wifi_pwd cfg) =? 0)
  then (false, cfg, ESP8266.set_lastError st' VALIDATION_FAILED)
  else (true, cfg, ESP8266.set_lastError st' NONE).
Proof.
  intros Hi Hwf Hz Hsz st'. subst st'.
  rewrite (saveConfig_lawful_any se cfg Hi Hwf Hsz). cbn [snd].
  destruct (stored_after_commit (ESP8266.eeprom se) cfg Hwf Hsz) as [Hm Hg].
  by apply loadConfig_of_stored.
Qed.

End ESP8266_AfterSave.

(** X7. [saveConfig] does not examine the WiFi fields. A well-formed record
    with NUL-terminated buffers and an empty [wifi_ssid] or [wifi_pwd]
    (checksum field 0) is written, verified (the read-back comparisons, made
    on the members in place, find equal strings) and reported as saved when
    the commit succeeds; the next [loadConfig] then returns false with
    [VALIDATION_FAILED]. *)
Theorem saveConfig_accepts_what_loadConfig_rejects
  {E : Type} `{EEPROM_Lawful E}
  (se : ESP8266.Storage E) (cfg out : configuration) :
  ESP8266.initialized se = true ->
  ee_length (ESP8266.eeprom se) = EEPROM_SIZE ->
  wf_configuration cfg = true -> nul_terminated cfg = true ->
  checksum cfg = 0 ->
  strlen (wifi_ssid cfg) = 0 \/ strlen (wifi_pwd cfg) = 0 ->
  fst (ee_commit (staged (ESP8266.eeprom se) cfg)) = true ->
  let s := ESP8266.saveConfig se cfg in
  fst s = true /\ ESP8266.getLastError (snd s) = NONE /\
  strings_equal_in_place cfg
    (ee_get (ESP8266.eeprom (snd s)) (EEPROM_START + 1)) /\
  fst (fst (ESP8266.loadConfig (snd s) out)) = false /\
  ESP8266.getLastError (snd (ESP8266.loadConfig (snd s) out))
  = VALIDATION_FAILED.
Proof.
  intros Hi Hsz Hwf Hterm Hz Hempty Hc s.
  pose proof (loadConfig_after_any_save se cfg out Hi Hwf Hz Hsz) as Hl.
  cbv zeta in Hl. fold s in Hl. rewrite Hl.
  assert (Hs : s = (true, ESP8266.mkStorage
                            (snd (ee_commit (staged (ESP8266.eeprom se) cfg)))
                            true NONE)) by (by apply saveConfig_lawful).
  rewrite Hs. cbn [fst snd].
  split; [done|]. split; [done|].
  split.
  { destruct (stored_after_commit (ESP8266.eeprom se) cfg Hwf Hsz) as [_ Hg].
    cbv zeta in Hg. cbn [ESP8266.eeprom]. rewrite Hg.
    by apply strings_equal_in_place_terminated. }
  assert ((strlen (wifi_ssid cfg) =? 0) || (strlen (wifi_pwd cfg) =? 0) = true)
    as ->.
  { apply orb_true_iff. destruct Hempty as [He|He]; [left|right];
      by apply Z.eqb_eq. }
  done.
Qed.

Lemma saveConfig_accepts_what_loadConfig_rejects_witness :
  fst (ESP8266.saveConfig ready8266 nossid_cfg) = true /\
  fst (fst (ESP8266.loadConfig
              (snd (ESP8266.saveConfig ready8266 nossid_cfg)) zero_cfg)) = false.
Proof.
  pose proof (saveConfig_accepts_what_loadConfig_rejects
                ready8266 nossid_cfg zero_cfg
                eq_refl eq_refl eq_refl eq_refl eq_refl (or_introl eq_refl) eq_refl)
    as (Hs & _ & _ & Hl & _).
  split; [exact Hs | exact Hl].
Defined.

(** X8. A failed [saveConfig] is still seen by [loadConfig]. On a lawful
    device the record sits in the mirror that [read] and [get] use whether
    or not the commit to flash succeeded: when the commit fails, [saveConfig]
    returns false with [COMMIT_FAILED], and a following [loadConfig] returns
    true with the record that was not saved. *)
Theorem failed_commit_still_loads
  {E : Type} `{EEPROM_Lawful E}
  (se : ESP8266.Storage E) (cfg out : configuration) :
  ESP8266.initialized se = true ->
  ee_length (ESP8266.eeprom se) = EEPROM_SIZE ->
  wf_configuration cfg = true -> checksum cfg = 0 ->
  strlen (wifi_ssid cfg) <> 0 -> strlen (wifi_pwd cfg) <> 0 ->
  fst (ee_commit (staged (ESP8266.eeprom se) cfg)) = false ->
  let s := ESP8266.saveConfig se cfg in
  fst s = false /\ ESP8266.getLastError (snd s) = COMMIT_FAILED /\
  ESP8266.loadConfig (snd s) out
  = (true, cfg, ESP8266.set_lastError (snd s) NONE).
Proof.
  intros Hi Hsz Hwf Hz Hs Hp Hc s.
  pose proof (loadConfig_after_any_save se cfg out Hi Hwf Hz Hsz) as Hl.
  cbv zeta in Hl. fold s in Hl. rewrite Hl.
  pose proof (saveConfig_lawful_any se cfg Hi Hwf Hsz) as Hsv.
  fold s in Hsv. rewrite Hc in Hsv. rewrite Hsv. cbn [fst snd].
  split; [done|]. split; [done|].
  destruct (Z.eqb_spec (strlen (wifi_ssid cfg)) 0); [done|].
  destruct (Z.eqb_spec (strlen (wifi_pwd cfg)) 0); done.
Qed.

Lemma failed_commit_still_loads_witness :
  fst (ESP8266.saveConfig ready_failing8266 sensor1_cfg) = false /\
  fst (fst (ESP8266.loadConfig
              (snd (ESP8266.saveConfig ready_failing8266 sensor1_cfg))
              zero_cfg)) = true.
Proof.
  assert (Hs : strlen (wifi_ssid sensor1_cfg) <> 0) by (vm_compute; discriminate).
  assert (Hp : strlen (wifi_pwd sensor1_cfg) <> 0) by (vm_compute; discriminate).
  pose proof (failed_commit_still_loads ready_failing8266 sensor1_cfg zero_cfg
                eq_refl eq_refl eq_refl eq_refl Hs Hp eq_refl)
    as (Hr & _ & Hl).
  split; [exact Hr|]. by rewrite Hl.
Defined.

(** ** Storage, ESP8266: clear *)

Section ESP8266_Clear.
Context {E : Type} `{EEPROM_Lawful E}.

Lemma ee_get_bytes_ext_in (d1 d2 : E) (a : Z) (n : nat) :
  (forall i, 0 <= i < Z.of_nat n -> ee_read d1 (a + i) = ee_read d2 (a + i)) ->
  ee_get_bytes d1 a n = ee_get_bytes d2 a n.
Proof.
  intros Hx. unfold ee_get_bytes. apply map_ext_in.
  intros i Hi%in_seq. apply Hx. lia.
Qed.

End ESP8266_Clear.

(** X9. [clear] invalidates without erasing. On an initialized facade over
    a lawful device it rewrites the marker byte only: the 82 record bytes
    read as before, and the next [loadConfig] returns false with
    [VALIDATION_FAILED] -- also when the commit failed and [clear] itself
    returned false. *)
Theorem clear_invalidates_keeps_record
  {E : Type} `{EEPROM_Lawful E}
  (se : ESP8266.Storage E) (out : configuration) :
  ESP8266.initialized se = true ->
  ee_length (ESP8266.eeprom se) = EEPROM_SIZE ->
  let r := ESP8266.clear se in
  fst r = fst (ee_commit (ee_write (ESP8266.eeprom se) EEPROM_START 0)) /\
  ee_read (ESP8266.eeprom (snd r)) EEPROM_START = 0 /\
  ee_get (ESP8266.eeprom (snd r)) (EEPROM_START + 1)
  = ee_get (ESP8266.eeprom se) (EEPROM_START + 1) /\
  ESP8266.loadConfig (snd r) out
  = (false, out, ESP8266.set_lastError (snd r) VALIDATION_FAILED).
Proof.
  intros Hi Hsz r.
  assert (Hr : r = (fst (ee_commit (ee_write (ESP8266.eeprom se) EEPROM_START 0)),
                    ESP8266.set_eeprom se
                      (snd (ee_commit (ee_write (ESP8266.eeprom se) EEPROM_START 0))))).
  { subst r. unfold ESP8266.clear. rewrite Hi. cbn [negb].
    by destruct (ee_commit _). }
  rewrite Hr. cbn [fst snd ESP8266.set_eeprom ESP8266.eeprom].
  assert (Hm : ee_read (snd (ee_commit (ee_write (ESP8266.eeprom se) EEPROM_START 0)))
                 EEPROM_START = 0).
  { rewrite ee_read_commit, ee_read_write_eq; [done|].
    rewrite Hsz. unfold EEPROM_START, EEPROM_SIZE. lia. }
  split; [done|]. split; [exact Hm|]. split.
  - unfold ee_get. f_equal. apply ee_get_bytes_ext_in. intros i Hi'.
    rewrite ee_read_commit. apply ee_read_write_ne. lia.
  - rewrite loadConfig_initialized by done. cbv zeta.
    cbn [ESP8266.eeprom ESP8266.set_eeprom]. rewrite Hm. done.
Qed.

Lemma clear_invalidates_keeps_record_witness :
  fst (fst (ESP8266.loadConfig (snd (ESP8266.clear saved8266)) zero_cfg)) = false /\
  ee_get (ESP8266.eeprom (snd (ESP8266.clear saved8266))) (EEPROM_START + 1)
  = ee_get (ESP8266.eeprom saved8266) (EEPROM_START + 1).
Proof.
  pose proof (clear_invalidates_keeps_record saved8266 zero_cfg eq_refl eq_refl)
    as (_ & _ & Hg & Hl).
  split; [by rewrite Hl | exact Hg].
Defined.

(** ** getErrorString *)

(** X10. Every error code has a message of its own: [getErrorString] maps
    different codes to different texts. *)
Theorem getErrorString_injective (e1 e2 : StorageError) :
  getErrorString e1 = getErrorString e2 -> e1 = e2.
Proof. destruct e1, e2; simpl; intros Heq; try reflexivity; discriminate Heq. Qed.

Lemma getErrorString_injective_witness : COMMIT_FAILED = COMMIT_FAILED.
Proof. exact (getErrorString_injective COMMIT_FAILED COMMIT_FAILED eq_refl). Defined.

(** ** network.cpp: handleConfig *)

Section HandleConfig_Facts.
Context {S : Type}.
Variable updateField : S -> list Z -> list Z -> bool * S.
Variable saveConfig : S -> configuration -> bool * S.

(** The handler on a parsed document, step by step: the two optional
    updates, then the save when one of them succeeded. *)
Lemma handleConfig_document (st : S) (cfg : configuration)
  (n l : option (list Z)) :
  let u1 := match n with
            | Some v => updateField st (lit "name") v
            | None => (false, st)
            end in
  let cfg1 := match n with
              | Some v => if fst u1
                          then set_name cfg (strlcpy (name cfg) v FIELD_SIZE)
                          else cfg
              | None => cfg
              end in
  let u2 := match l with
            | Some v => updateField (snd u1) (lit "location") v
            | None => (false, snd u1)
            end in
  let cfg2 := match l with
              | Some v => if fst u2
                          then set_location cfg1
                                 (strlcpy (location cfg1) v FIELD_SIZE)
                          else cfg1
              | None => cfg1
              end in
  handleConfig updateField saveConfig st cfg (Document n l) =
  if fst u1 || fst u2
  then (if fst (saveConfig (snd u2) cfg2)
        then ConfigurationUpdated else SaveFailed,
        cfg2, snd (saveConfig (snd u2) cfg2))
  else (NoChangesMade, cfg2, snd u2).
Proof.
  intros u1 cfg1 u2 cfg2. subst u1 cfg1 u2 cfg2. unfold handleConfig.
  destruct n as [v|], l as [w|]; cbn [fst snd orb].
  - destruct (updateField st (lit "name") v) as [[] s1]; cbn [fst snd orb];
      destruct (updateField s1 (lit "location") w) as [[] s2]; cbn [fst snd orb];
      try destruct (saveConfig s2 _) as [[] s3]; done.
  - destruct (updateField st (lit "name") v) as [[] s1]; cbn [fst snd orb];
      try destruct (saveConfig s1 _) as [[] s3]; done.
  - destruct (updateField st (lit "location") w) as [[] s2]; cbn [fst snd orb];
      try destruct (saveConfig s2 _) as [[] s3]; done.
  - done.
Qed.

End HandleConfig_Facts.

(** X11. Whatever the request and whatever the facade answers,
    [handleConfig] leaves [wifi_ssid], [wifi_pwd] and the checksum field of
    the in-memory configuration as they were; and a request without payload
    or with a payload that does not parse is answered with 400 without any
    call to the facade and without any change to the configuration. *)
Theorem handleConfig_frame {S : Type}
  (updateField : S -> list Z -> list Z -> bool * S)
  (saveConfig : S -> configuration -> bool * S)
  (st : S) (cfg : configuration) (req : config_request) :
  let r := handleConfig updateField saveConfig st cfg req in
  (wifi_ssid (snd (fst r)) = wifi_ssid cfg /\
   wifi_pwd (snd (fst r)) = wifi_pwd cfg /\
   checksum (snd (fst r)) = checksum cfg) /\
  (status_code (fst (fst r)) = 400 <->
   req = NoPayload \/ req = InvalidJson) /\
  (status_code (fst (fst r)) = 400 -> snd (fst r) = cfg /\ snd r = st).
Proof.
  intros r. subst r. destruct req as [| |n l].
  - cbn. split; [done|]. split; [|done]. split; [by left|done].
  - cbn. split; [done|]. split; [|done]. split; [by right|done].
  - rewrite handleConfig_document. cbv zeta.
    assert (Hne : Document n l <> NoPayload /\ Document n l <> InvalidJson)
      by (split; discriminate).
    split; [|split].
    + destruct n as [v|], l as [w|];
        repeat match goal with
        | |- context [if ?b then _ else _] => destruct b
        end; done.
    + split; [|intros [?|?]; done].
      destruct (_ || _); [destruct (fst (saveConfig _ _))|]; cbn; discriminate.
    + destruct (_ || _); [destruct (fst (saveConfig _ _))|]; cbn; discriminate.
Qed.

(** X12. The configuration in memory follows the store only on success.
    When the [updateField] calls the request asks for both return false, the
    handler does not call [saveConfig], leaves the in-memory configuration
    unchanged, and answers 200 "No changes made": the failure of the store
    is not reported to the client. *)
Theorem handleConfig_failed_updates {S : Type}
  (updateField : S -> list Z -> list Z -> bool * S)
  (saveConfig : S -> configuration -> bool * S)
  (st : S) (cfg : configuration) (newName newLocation : list Z) :
  fst (updateField st (lit "name") newName) = false ->
  fst (updateField (snd (updateField st (lit "name") newName))
         (lit "location") newLocation) = false ->
  handleConfig updateField saveConfig st cfg
    (Document (Some newName) (Some newLocation))
  = (NoChangesMade, cfg,
     snd (updateField (snd (updateField st (lit "name") newName))
            (lit "location") newLocation)) /\
  status_code NoChangesMade = 200.
Proof.
  intros H1 H2. rewrite handleConfig_document. cbv zeta.
  rewrite H1. cbn [orb]. rewrite H2. done.
Qed.

Lemma handleConfig_failed_updates_witness :
  fst (fst (handleConfig ESP8266.updateField ESP8266.saveConfig
              ready8266 sensor1_cfg
              (Document (Some (lit "n2")) (Some (lit "l2"))))) = NoChangesMade.
Proof.
  destruct (handleConfig_failed_updates ESP8266.updateField ESP8266.saveConfig
              ready8266 sensor1_cfg (lit "n2") (lit "l2")) as [Hh _].
  - vm_compute. reflexivity.
  - vm_compute. reflexivity.
  - by rewrite Hh.
Defined.

Lemma handleConfig_frame_witness :
  snd (fst (handleConfig ESP8266.updateField ESP8266.saveConfig
              ready8266 sensor1_cfg InvalidJson)) = sensor1_cfg.
Proof.
  apply (proj2 (proj2 (handleConfig_frame ESP8266.updateField ESP8266.saveConfig
                         ready8266 sensor1_cfg InvalidJson))).
  reflexivity.
Defined.

Section ESP8266_Handler.
Context {E : Type} `{EEPROM_Lawful E}.
Implicit Types (se : ESP8266.Storage E) (cfg out : configuration).

Lemma staged_length (dev : E) cfg :
  ee_length (snd (ee_commit (staged dev cfg))) = ee_length dev.
Proof.
  unfold staged, ee_put.
  by rewrite ee_length_commit, ee_length_put_bytes, ee_length_write.
Qed.

(** Neither [saveConfig] nor [updateField] changes the capacity of the
    device or resets [initialized]. *)
Lemma saveConfig_keeps se cfg :
  ee_length (ESP8266.eeprom (snd (ESP8266.saveConfig se cfg)))
  = ee_length (ESP8266.eeprom se) /\
  ESP8266.initialized (snd (ESP8266.saveConfig se cfg)) = ESP8266.initialized se.
Proof.
  destruct (ESP8266.initialized se) eqn:Hi.
  - rewrite (saveConfig_initialized se cfg Hi). cbv zeta.
    destruct (negb _); [|destruct (bool_decide _)];
      cbn [snd ESP8266.eeprom ESP8266.initialized
           ESP8266.set_lastError ESP8266.set_eeprom];
      by rewrite staged_length.
  - by rewrite (saveConfig_uninitialized se cfg Hi).
Qed.

Lemma updateField_keeps se (field value : list Z) :
  ee_length (ESP8266.eeprom (snd (ESP8266.updateField se field value)))
  = ee_length (ESP8266.eeprom se) /\
  ESP8266.initialized (snd (ESP8266.updateField se field value))
  = ESP8266.initialized se.
Proof.
  destruct (ESP8266.initialized se) eqn:Hi.
  - destruct (fst (fst (ESP8266.loadConfig se zero_cfg))) eqn:Hl.
    + rewrite (updateField_after_load se field value Hi Hl).
      destruct (edited_record _ _ _) as [cfg'|];
        cbn [snd ESP8266.eeprom ESP8266.initialized ESP8266.set_lastError];
        [|done].
      destruct (saveConfig_keeps (ESP8266.set_lastError se NONE) cfg') as [-> ->].
      done.
    + rewrite (updateField_needs_record se field value Hi Hl). done.
  - unfold ESP8266.updateField.
    by rewrite (updateField_uninitialized se _ field value Hi).
Qed.

End ESP8266_Handler.

Lemma wf_after_name (cfg : configuration) (v : list Z) :
  wf_configuration cfg = true -> bytes_ok v ->
  wf_configuration (set_name cfg (strlcpy (name cfg) v FIELD_SIZE)) = true.
Proof.
  intros Hwf Hv.
  by destruct (edited_record_wf (lit "name") v cfg _ Hwf Hv eq_refl).
Qed.

Lemma wf_after_location (cfg : configuration) (v : list Z) :
  wf_configuration cfg = true -> bytes_ok v ->
  wf_configuration (set_location cfg (strlcpy (location cfg) v FIELD_SIZE)) = true.
Proof.
  intros Hwf Hv.
  by destruct (edited_record_wf (lit "location") v cfg _ Hwf Hv eq_refl).
Qed.

(** X13. On the ESP8266 variant over a lawful device: when [handleConfig]
    answers "Configuration updated successfully", what is persisted is the
    in-memory configuration. For a well-formed in-memory configuration with
    checksum field 0 and non-empty WiFi fields, a [loadConfig] right after
    the handler returns true with exactly the configuration the handler left
    in memory. *)
Theorem handleConfig_updated_is_persisted
  {E : Type} `{EEPROM_Lawful E}
  (se : ESP8266.Storage E) (cfg out : configuration)
  (newName newLocation : option (list Z)) :
  ESP8266.initialized se = true ->
  ee_length (ESP8266.eeprom se) = EEPROM_SIZE ->
  wf_configuration cfg = true -> checksum cfg = 0 ->
  strlen (wifi_ssid cfg) <> 0 -> strlen (wifi_pwd cfg) <> 0 ->
  (forall v, newName = Some v -> bytes_ok v) ->
  (forall v, newLocation = Some v -> bytes_ok v) ->
  let r := handleConfig ESP8266.updateField ESP8266.saveConfig se cfg
             (Document newName newLocation) in
  fst (fst r) = ConfigurationUpdated ->
  ESP8266.loadConfig (snd r) out
  = (true, snd (fst r), ESP8266.set_lastError (snd r) NONE).
Proof.
  intros Hi Hsz Hwf Hz Hs Hp Hn Hl r. subst r.
  rewrite handleConfig_document. cbv zeta.
  set (u1 := match newName with
             | Some v => ESP8266.updateField se (lit "name") v
             | None => (false, se)
             end).
  set (cfg1 := match newName with
               | Some v => if fst u1
                           then set_name cfg (strlcpy (name cfg) v FIELD_SIZE)
                           else cfg
               | None => cfg
               end).
  set (u2 := match newLocation with
             | Some v => ESP8266.updateField (snd u1) (lit "location") v
             | None => (false, snd u1)
             end).
  set (cfg2 := match newLocation with
               | Some v => if fst u2
                           then set_location cfg1
                                  (strlcpy (location cfg1) v FIELD_SIZE)
                           else cfg1
               | None => cfg1
               end).
  assert (K1 : ee_length (ESP8266.eeprom (snd u1)) = EEPROM_SIZE /\
               ESP8266.initialized (snd u1) = true).
  { subst u1. destruct newName as [v|]; [|done].
    destruct (updateField_keeps se (lit "name") v) as [-> ->]. done. }
  assert (K2 : ee_length (ESP8266.eeprom (snd u2)) = EEPROM_SIZE /\
               ESP8266.initialized (snd u2) = true).
  { subst u2. destruct newLocation as [v|]; [|done].
    destruct (updateField_keeps (snd u1) (lit "location") v) as [-> ->]. done. }
  assert (W1 : wf_configuration cfg1 = true /\ checksum cfg1 = 0 /\
               wifi_ssid cfg1 = wifi_ssid cfg /\ wifi_pwd cfg1 = wifi_pwd cfg).
  { subst cfg1. destruct newName as [v|]; [|done].
    destruct (fst u1); [|done].
    split; [apply wf_after_name; [done | by apply Hn]|done]. }
  destruct W1 as (W1 & Z1 & S1 & P1).
  assert (W2 : wf_configuration cfg2 = true /\ checksum cfg2 = 0 /\
               wifi_ssid cfg2 = wifi_ssid cfg /\ wifi_pwd cfg2 = wifi_pwd cfg).
  { subst cfg2. destruct newLocation as [v|]; [|done].
    destruct (fst u2); [|done].
    split; [apply wf_after_location; [done | by apply Hl]|done]. }
  destruct W2 as (W2 & Z2 & S2 & P2). destruct K2 as [L2 I2].
  destruct (fst u1 || fst u2); cbn [fst snd]; [|discriminate].
  destruct (fst (ESP8266.saveConfig (snd u2) cfg2)); [|discriminate].
  intros _.
  pose proof (loadConfig_after_any_save (snd u2) cfg2 out I2 W2 Z2 L2) as Hload.
  cbv zeta in Hload. rewrite Hload, S2, P2.
  destruct (Z.eqb_spec (strlen (wifi_ssid cfg)) 0); [done|].
  destruct (Z.eqb_spec (strlen (wifi_pwd cfg)) 0); done.
Qed.

Lemma handleConfig_updated_is_persisted_witness :
  c_str (name (snd (fst (ESP8266.loadConfig
    (snd (handleConfig ESP8266.updateField ESP8266.saveConfig
            saved8266 sensor1_cfg (Document (Some (lit "probe7")) None)))
    zero_cfg)))) = lit "probe7".
Proof.
  assert (Hs : strlen (wifi_ssid sensor1_cfg) <> 0) by (vm_compute; discriminate).
  assert (Hp : strlen (wifi_pwd sensor1_cfg) <> 0) by (vm_compute; discriminate).
  assert (Hn : forall v, Some (lit "probe7") = Some v -> bytes_ok v).
  { intros v [= <-]. apply bytes_ok_forallb. reflexivity. }
  assert (Hl : forall v, @None (list Z) = Some v -> bytes_ok v)
    by (intros v Hv; discriminate Hv).
  assert (Hlen : ee_length (ESP8266.eeprom saved8266) = EEPROM_SIZE)
    by reflexivity.
  assert (Hr : fst (fst (handleConfig ESP8266.updateField ESP8266.saveConfig
                           saved8266 sensor1_cfg
                           (Document (Some (lit "probe7")) None)))
               = ConfigurationUpdated) by (vm_compute; reflexivity).
  pose proof (handleConfig_updated_is_persisted saved8266 sensor1_cfg zero_cfg
                (Some (lit "probe7")) None
                eq_refl Hlen eq_refl eq_refl Hs Hp Hn Hl Hr) as Hload.
  rewrite Hload. vm_compute. reflexivity.
Defined.

(** ** The earlier sketch: saveConfiguration and loadConfiguration *)

Lemma legacy_wf_spec (cfg : Legacy.configuration) :
  Legacy.wf_configuration cfg = true ->
  (length (Legacy.location cfg) = FIELD_SIZE /\ bytes_ok (Legacy.location cfg)) /\
  (length (Legacy.name cfg) = FIELD_SIZE /\ bytes_ok (Legacy.name cfg)) /\
  (length (Legacy.wifi_ssid cfg) = FIELD_SIZE /\ bytes_ok (Legacy.wifi_ssid cfg)) /\
  (length (Legacy.wifi_pwd cfg) = FIELD_SIZE /\ bytes_ok (Legacy.wifi_pwd cfg)).
Proof.
  unfold Legacy.wf_configuration. rewrite !andb_true_iff.
  intros [[[H1 H2] H3] H4]. repeat split; by apply is_buffer_spec.
Qed.

Lemma legacy_of_raw_bytes_raw_bytes (cfg : Legacy.configuration) :
  Legacy.wf_configuration cfg = true ->
  Legacy.of_raw_bytes (Legacy.raw_bytes cfg) = cfg.
Proof.
  intros ([H1 _] & [H2 _] & [H3 _] & [H4 _])%legacy_wf_spec.
  destruct cfg as [l n s p]; simpl in *.
  unfold Legacy.of_raw_bytes, Legacy.raw_bytes, FIELD_SIZE in *; simpl.
  f_equal.
  - by rewrite take_app_length'.
  - rewrite drop_app_length' by done. by rewrite take_app_length'.
  - change 40%nat with (20 + 20)%nat. rewrite <- drop_drop.
    rewrite drop_app_length' by done. rewrite drop_app_length' by done.
    by rewrite take_app_length'.
  - change 60%nat with (20 + (20 + 20))%nat. rewrite <- !drop_drop.
    rewrite !drop_app_length' by done. rewrite <- H4. apply firstn_all.
Qed.

Lemma legacy_raw_bytes_facts (cfg : Legacy.configuration) :
  Legacy.wf_configuration cfg = true ->
  length (Legacy.raw_bytes cfg) = Legacy.sizeof_configuration /\
  bytes_ok (Legacy.raw_bytes cfg).
Proof.
  intros ([L1 B1] & [L2 B2] & [L3 B3] & [L4 B4])%legacy_wf_spec.
  unfold Legacy.raw_bytes. split.
  - rewrite !length_app, L1, L2, L3, L4. done.
  - unfold bytes_ok. rewrite !Forall_app. done.
Qed.

Section Legacy_Facts.
Context {E : Type} `{EEPROM_Lawful E}.

(** What the device holds after [saveConfiguration]: the marker and the
    bytes of the record, whatever the commit reported. *)
Lemma legacy_after_save (dev : E) (cfg : Legacy.configuration) :
  ee_length dev = EEPROM_SIZE ->
  Legacy.wf_configuration cfg = true ->
  ee_read (Legacy.saveConfiguration dev cfg) EEPROM_START = 1 /\
  Legacy.of_raw_bytes
    (ee_get_bytes (Legacy.saveConfiguration dev cfg) (EEPROM_START + 2)
       Legacy.sizeof_configuration) = cfg.
Proof.
  intros Hsz Hwf. destruct (legacy_raw_bytes_facts cfg Hwf) as [Hlen Hok].
  unfold Legacy.saveConfiguration. split.
  - rewrite ee_read_commit, ee_read_put_bytes_outside by lia.
    rewrite ee_read_write_eq; [done|].
    rewrite Hsz. unfold EEPROM_START, EEPROM_SIZE. lia.
  - rewrite (ee_get_bytes_ext _
               (ee_put_bytes (ee_write dev EEPROM_START 1) (EEPROM_START + 2)
                  (Legacy.raw_bytes cfg))) by apply ee_read_commit.
    rewrite <- Hlen, ee_get_put_bytes; [by apply legacy_of_raw_bytes_raw_bytes| | |done].
    + unfold EEPROM_START. lia.
    + rewrite ee_length_write, Hsz, Hlen.
      unfold EEPROM_START, EEPROM_SIZE, Legacy.sizeof_configuration. lia.
Qed.

End Legacy_Facts.

(** X14. The earlier sketch, on a lawful device of 4096 bytes:
    [loadConfiguration] after [saveConfiguration] gives back the saved
    record and writes nothing; and on a device whose marker is not set (a
    first start) [loadConfiguration] stores the configuration currently in
    memory, sets the marker and leaves that configuration in memory. Both
    hold whether or not the commit succeeded, since its outcome is only
    printed. *)
Theorem legacy_save_load
  {E : Type} `{EEPROM_Lawful E}
  (dev : E) (cfg other : Legacy.configuration) :
  ee_length dev = EEPROM_SIZE ->
  Legacy.wf_configuration cfg = true ->
  Legacy.loadConfiguration (Legacy.saveConfiguration dev cfg) other
  = (Legacy.saveConfiguration dev cfg, cfg) /\
  (ee_read dev EEPROM_START <> 1 ->
   Legacy.loadConfiguration dev cfg = (Legacy.saveConfiguration dev cfg, cfg) /\
   ee_read (fst (Legacy.loadConfiguration dev cfg)) EEPROM_START = 1).
Proof.
  intros Hsz Hwf.
  destruct (legacy_after_save dev cfg Hsz Hwf) as [Hm Hg].
  split.
  - unfold Legacy.loadConfiguration. rewrite Hm. cbn [Z.eqb Pos.eqb negb].
    by rewrite Hg.
  - intros Hfirst. unfold Legacy.loadConfiguration.
    destruct (Z.eqb_spec (ee_read dev EEPROM_START) 1); [done|].
    cbn [negb fst]. by rewrite Hg.
Qed.

Lemma legacy_save_load_witness :
  snd (Legacy.loadConfiguration (ESP8266.eeprom ready8266) legacy_cfg)
  = legacy_cfg.
Proof.
  assert (Hlen : ee_length (ESP8266.eeprom ready8266) = EEPROM_SIZE)
    by reflexivity.
  destruct (legacy_save_load (ESP8266.eeprom ready8266) legacy_cfg legacy_cfg
              Hlen eq_refl) as [_ Hfirst].
  destruct Hfirst as [Hl _].
  - vm_compute. discriminate.
  - by rewrite Hl.
Defined.

(** ** sensors.cpp: readSensorData *)

(** No binary32 value compares equal to NaN, NaN included. *)
Lemma f32_eqb_NAN (x : f32) : f32_eqb x NAN = false.
Proof. by destruct x. Qed.

(** X15. [readSensorData] cannot report a failed reading. The tests
    [temp == NAN] and [press == NAN] are false for every value, NaN
    included, so the function returns true for all readings and overwrites
    the stored temperature, pressure (divided by 100) and light level with
    them; the humidity is overwritten as well whenever it is read. A NaN
    from the driver ends up in the stored reading. *)
Theorem readSensorData_never_fails
  (bme280_h : bool) (env : environment) (r : sensor_readings) :
  fst (readSensorData bme280_h env r) = true /\
  temperature (snd (readSensorData bme280_h env r)) = readTemperature r /\
  pressure (snd (readSensorData bme280_h env r))
  = f32_div (readPressure r) f32_100 /\
  humidity (snd (readSensorData bme280_h env r))
  = (if bme280_h then readHumidity r else humidity env) /\
  lux (snd (readSensorData bme280_h env r)) = GetLightIntensity r /\
  (readTemperature r = NAN ->
   temperature (snd (readSensorData bme280_h env r)) = NAN) /\
  (readPressure r = NAN ->
   pressure (snd (readSensorData bme280_h env r)) = NAN).
Proof.
  unfold readSensorData. rewrite !f32_eqb_NAN. cbn [negb fst snd].
  destruct bme280_h; cbn [temperature pressure humidity lux];
    (repeat split; try done); by intros ->.
Qed.

Lemma readSensorData_never_fails_witness :
  temperature (snd (readSensorData true
                      (mkEnvironment f32_100 f32_100 f32_100 0)
                      (mkReadings NAN f32_100 f32_100 7))) = NAN.
Proof.
  apply (proj1 (proj2 (proj2 (proj2 (proj2 (proj2
           (readSensorData_never_fails true
              (mkEnvironment f32_100 f32_100 f32_100 0)
              (mkReadings NAN f32_100 f32_100 7)))))))).
  reflexivity.
Defined.

(** ** Storage, ESP32 on the reference store: updateField and the checksum *)

(** X16. On the ESP32 variant [updateField] writes one key and leaves the
    stored checksum as it was. After [saveConfig(R)] and a successful
    [updateField("name", v)] on the reference store, [loadConfig] compares
    the checksum of [R] with the byte sum of the record that now carries the
    new name: it returns true exactly when the two coincide, and false with
    [VALIDATION_FAILED] otherwise. *)
Theorem updateField32_leaves_checksum
  (m : gmap (list Z) nvs_value) (e : StorageError)
  (R out : configuration) (v : list Z) :
  checksum R = 0 ->
  strlen (name R) <> 0 -> strlen (location R) <> 0 ->
  strlen (wifi_ssid R) <> 0 -> strlen (wifi_pwd R) <> 0 ->
  copies_exactly (location out) (location R) ->
  copies_exactly (wifi_ssid out) (wifi_ssid R) ->
  copies_exactly (wifi_pwd out) (wifi_pwd R) ->
  strlen v <> 0 ->
  let st := ESP32.mkStorage (mkNvsPreferences m true true) true e in
  let s1 := ESP32.saveConfig st R in
  let s2 := ESP32.updateField (snd s1) (lit "name") v in
  let R' := set_name R (strlcpy (name out) v FIELD_SIZE) in
  fst s1 = true /\ fst s2 = true /\
  getUShort (ESP32.preferences (snd s2)) (lit "checksum") 0
  = calculateChecksum R /\
  ESP32.loadConfig (snd s2) out =
  if calculateChecksum R =? calculateChecksum R'
  then (true, R', ESP32.set_lastError (snd s2) NONE)
  else (false, R', ESP32.set_lastError (snd s2) VALIDATION_FAILED).
Proof.
  intros Hz Hn Hl Hs Hp Cl Cs Cp Hv st s1 s2 R'.
  assert (Hs1 : s1 = (true, ESP32.mkStorage
                        (mkNvsPreferences
                           (entries_after_save m R (calculateChecksum R))
                           true true) true NONE)).
  { subst s1 st. unfold ESP32.saveConfig.
    cbv [ESP32.initialized ESP32.preferences negb checksum set_checksum].
    by rewrite put_all_nvs. }
  set (m1 := entries_after_save m R (calculateChecksum R)) in *.
  assert (Hs2 : s2 = (true, ESP32.mkStorage
                        (mkNvsPreferences (<[lit "name" := NvsStr (c_str v)]> m1)
                           true true) true NONE)).
  { subst s2. rewrite Hs1. cbn [snd]. unfold ESP32.updateField.
    cbv [ESP32.initialized ESP32.preferences negb].
    cbn [putString NvsPreferences_device]. unfold nvs_putString.
    cbn [started nvs_ok andb entries].
    change (c_str (lit "name")) with (lit "name").
    destruct (Z.eqb_spec (strlen v) 0); [done|]. reflexivity. }
  set (p2 := mkNvsPreferences (<[lit "name" := NvsStr (c_str v)]> m1) true true).
  assert (G : getString p2 (lit "name") (lit "") = c_str v /\
              getString p2 (lit "location") (lit "") = c_str (location R) /\
              getString p2 (lit "wifi_ssid") (lit "") = c_str (wifi_ssid R) /\
              getString p2 (lit "wifi_pwd") (lit "") = c_str (wifi_pwd R) /\
              getUShort p2 (lit "checksum") 0 = calculateChecksum R).
  { destruct (getString_after_save m R (calculateChecksum R))
      as (_ & Gl0 & Gs0 & Gp0 & Gc0).
    cbv zeta in Gl0, Gs0, Gp0, Gc0. fold m1 in Gl0, Gs0, Gp0, Gc0.
    rewrite Z.mod_small in Gc0 by apply calculateChecksum_range.
    rewrite <- Gl0, <- Gs0, <- Gp0, <- Gc0.
    subst p2. cbn [getString getUShort NvsPreferences_device].
    unfold nvs_getString, nvs_getUShort. cbn [started entries].
    change (c_str (lit "name")) with (lit "name").
    rewrite lookup_insert_eq.
    rewrite !lookup_insert_ne by (intros Hk; vm_compute in Hk; discriminate Hk).
    done. }
  destruct G as (Gn & Gl & Gs & Gp & Gc).
  assert (Hcopy : copied_out p2 out = R').
  { unfold copied_out. rewrite Gn, Gl, Gs, Gp, !strlcpy_c_str.
    unfold copies_exactly in *. rewrite Cl, Cs, Cp. subst R'.
    rewrite <- Hz. by destruct R. }
  rewrite Hs1, Hs2. cbn [fst snd ESP32.preferences]. fold p2.
  split; [done|]. split; [done|]. split; [exact Gc|].
  rewrite loadConfig32_initialized by done. cbv zeta.
  cbn [ESP32.preferences]. fold p2. rewrite Hcopy, Gn, Gc.
  unfold strlen in Hv |- *. rewrite c_str_idemp.
  destruct (Z.eqb_spec (Z.of_nat (length (c_str v))) 0); [done|].
  fold (strlen (wifi_ssid R')) (strlen (wifi_pwd R')).
  subst R'. cbn [wifi_ssid wifi_pwd set_name].
  destruct (calculateChecksum R =? _); cbn [negb]; [|done].
  destruct (Z.eqb_spec (strlen (wifi_ssid R)) 0); [done|].
  destruct (Z.eqb_spec (strlen (wifi_pwd R)) 0); done.
Qed.

Lemma updateField32_leaves_checksum_witness :
  fst (ESP32.updateField saved32 (lit "name") (lit "probe7")) = true /\
  fst (fst (ESP32.loadConfig
              (snd (ESP32.updateField saved32 (lit "name") (lit "probe7")))
              zero_cfg)) = false.
Proof.
  assert (Hn : strlen (name sensor1_cfg) <> 0) by (vm_compute; discriminate).
  assert (Hl : strlen (location sensor1_cfg) <> 0) by (vm_compute; discriminate).
  assert (Hs : strlen (wifi_ssid sensor1_cfg) <> 0) by (vm_compute; discriminate).
  assert (Hp : strlen (wifi_pwd sensor1_cfg) <> 0) by (vm_compute; discriminate).
  assert (Hv : strlen (lit "probe7") <> 0) by (vm_compute; discriminate).
  pose proof (updateField32_leaves_checksum ∅ NONE sensor1_cfg zero_cfg
                (lit "probe7") eq_refl Hn Hl Hs Hp
                (copies_exactly_buffer_of _) (copies_exactly_buffer_of _)
                (copies_exactly_buffer_of _) Hv) as (_ & Hu & _ & Hload).
  split; [exact Hu|]. cbv zeta in Hload.
  change (snd (ESP32.updateField saved32 (lit "name") (lit "probe7")))
    with (snd (ESP32.updateField
                 (snd (ESP32.saveConfig
                         (ESP32.mkStorage (mkNvsPreferences ∅ true true) true NONE)
                         sensor1_cfg))
                 (lit "name") (lit "probe7"))).
  rewrite Hload. vm_compute. reflexivity.
Defined.
